(** * Space Typing Adventure: screens and positioned entities

    A shallow embedding of the TypeScript sources
    - [types.ts]: the [View] interface, the [Screen] union, the abstract
      [ScreenController] and the [Object] class (the positioned entity),
    - [main.ts]: the [App] that owns the stage and switches screens,
    - [GameScreenController.ts], [MenuScreenController.ts],
      [MenuScreenView.ts].

    JavaScript objects that are mutated in place live in an explicit
    store ([World]); methods are computations in a state-and-exception
    monad over that store.  A JS [number] that holds a coordinate, an
    angle or a factor is a rational ([Q]); rounding, NaN and the
    infinities of IEEE doubles are outside the model.  The module-level
    counter [ID] only ever holds 0, 1, 2, ... and is an integer ([Z]);
    doubles are exact on that range up to 2^53. *)

From Stdlib Require Import ZArith QArith String Lia.
From stdpp Require Import base option list list_numbers.

(** ** Locations *)

(** A reference to a heap-allocated JS object: its index in the store
    that holds objects of its class.  Stores only grow ([new] appends),
    which is how a garbage-collected heap looks from inside the program. *)
Abbreviation loc := nat (only parsing).

(** ** Konva nodes *)

(** The part of a [Konva.Node] ([Group], [Layer], [Stage]) that the
    program reads or writes: the attributes behind the getter/setter
    pairs [visible], [x], [y], [offsetX], [offsetY], [width], [height],
    [rotation], [scaleX], [scaleY], and the layer the node is attached to
    (what [getLayer()] returns). *)
Module Konva.

Record Node : Type := mkNode {
  visible : bool;
  x : Q;
  y : Q;
  offsetX : Q;
  offsetY : Q;
  width : Q;
  height : Q;
  rotation : Q;
  scaleX : Q;
  scaleY : Q;
  layer : option loc
}.

(** Konva's attribute defaults: visible, at the origin, zero size,
    no rotation, unit scale, not attached. *)
Definition default : Node :=
  mkNode true 0 0 0 0 0 0 0 1 1 None.

Definition with_visible (b : bool) (n : Node) : Node :=
  mkNode b (x n) (y n) (offsetX n) (offsetY n) (width n) (height n)
         (rotation n) (scaleX n) (scaleY n) (layer n).
Definition with_x (v : Q) (n : Node) : Node :=
  mkNode (visible n) v (y n) (offsetX n) (offsetY n) (width n) (height n)
         (rotation n) (scaleX n) (scaleY n) (layer n).
Definition with_y (v : Q) (n : Node) : Node :=
  mkNode (visible n) (x n) v (offsetX n) (offsetY n) (width n) (height n)
         (rotation n) (scaleX n) (scaleY n) (layer n).
Definition with_offsetX (v : Q) (n : Node) : Node :=
  mkNode (visible n) (x n) (y n) v (offsetY n) (width n) (height n)
         (rotation n) (scaleX n) (scaleY n) (layer n).
Definition with_offsetY (v : Q) (n : Node) : Node :=
  mkNode (visible n) (x n) (y n) (offsetX n) v (width n) (height n)
         (rotation n) (scaleX n) (scaleY n) (layer n).
Definition with_size (w h : Q) (n : Node) : Node :=
  mkNode (visible n) (x n) (y n) (offsetX n) (offsetY n) w h
         (rotation n) (scaleX n) (scaleY n) (layer n).
Definition with_rotation (v : Q) (n : Node) : Node :=
  mkNode (visible n) (x n) (y n) (offsetX n) (offsetY n) (width n) (height n)
         v (scaleX n) (scaleY n) (layer n).
Definition with_scaleX (v : Q) (n : Node) : Node :=
  mkNode (visible n) (x n) (y n) (offsetX n) (offsetY n) (width n) (height n)
         (rotation n) v (scaleY n) (layer n).
Definition with_scaleY (v : Q) (n : Node) : Node :=
  mkNode (visible n) (x n) (y n) (offsetX n) (offsetY n) (width n) (height n)
         (rotation n) (scaleX n) v (layer n).
Definition with_layer (l : option loc) (n : Node) : Node :=
  mkNode (visible n) (x n) (y n) (offsetX n) (offsetY n) (width n) (height n)
         (rotation n) (scaleX n) (scaleY n) l.

End Konva.

(** ** The positioned entity, class [Object] of types.ts *)

(** The fields of an [Object] instance.  [_image] is typed [Konva.Group]
    in the source; at run time the slot can hold [undefined], which is
    [None] here. *)
Record Object : Type := mkObject {
  _Id : Z;
  _rank : Q;
  _rotation : Q;
  _scale : Q;
  _x : Q;
  _y : Q;
  _image : option loc
}.

Definition Object_with_rank (v : Q) (o : Object) : Object :=
  mkObject (_Id o) v (_rotation o) (_scale o) (_x o) (_y o) (_image o).
Definition Object_with_rotation (v : Q) (o : Object) : Object :=
  mkObject (_Id o) (_rank o) v (_scale o) (_x o) (_y o) (_image o).
Definition Object_with_scale (v : Q) (o : Object) : Object :=
  mkObject (_Id o) (_rank o) (_rotation o) v (_x o) (_y o) (_image o).
Definition Object_with_x (v : Q) (o : Object) : Object :=
  mkObject (_Id o) (_rank o) (_rotation o) (_scale o) v (_y o) (_image o).
Definition Object_with_y (v : Q) (o : Object) : Object :=
  mkObject (_Id o) (_rank o) (_rotation o) (_scale o) (_x o) v (_image o).
Definition Object_with_image (v : option loc) (o : Object) : Object :=
  mkObject (_Id o) (_rank o) (_rotation o) (_scale o) (_x o) (_y o) v.

(** ** The store and its monad *)

(** What the program does to the outside, in program order: a write of a
    node's [visible] attribute, a redraw request to a layer, and a reset
    of the game model. *)
Inductive Effect : Type :=
  | EVisible (node : loc) (b : bool)
  | EDraw (layer : loc)
  | EReset.

(** The mutable state of the running page: the module variable [ID] of
    types.ts, the Konva nodes, the [Object] instances, and the effects
    issued so far. *)
Record World : Type := mkWorld {
  ID : Z;
  nodes : list Konva.Node;
  objects : list Object;
  trace : list Effect
}.

(** The page right after the scripts are loaded: [let ID = 0], nothing
    allocated. *)
Definition World_initial : World := mkWorld 0 [] [] [].

Definition World_with_ID (i : Z) (w : World) : World :=
  mkWorld i (nodes w) (objects w) (trace w).
Definition World_with_nodes (ns : list Konva.Node) (w : World) : World :=
  mkWorld (ID w) ns (objects w) (trace w).
Definition World_with_objects (os : list Object) (w : World) : World :=
  mkWorld (ID w) (nodes w) os (trace w).
Definition World_emit (e : Effect) (w : World) : World :=
  mkWorld (ID w) (nodes w) (objects w) (trace w ++ [e]).

(** [TypeError]: a property access on [undefined].  [InvalidReference]:
    a location that was never allocated; no JS value is one, the case
    exists so that the model never treats such a location as a live
    object. *)
Inductive JsError : Type :=
  | TypeError
  | InvalidReference.

Inductive Outcome (A : Type) : Type :=
  | Ok (a : A)
  | Throw (e : JsError).
Arguments Ok {A} a.
Arguments Throw {A} e.

(** A statement or method body: it runs on a store and either returns or
    throws; the writes made before a throw stay. *)
Definition M (A : Type) : Type := World -> Outcome A * World.

Definition run {A} (c : M A) (w : World) : Outcome A * World := c w.

#[global] Instance M_ret : MRet M := fun A a w => (Ok a, w).
#[global] Instance M_bind : MBind M := fun A B k c w =>
  match c w with
  | (Ok a, w') => k a w'
  | (Throw e, w') => (Throw e, w')
  end.

Definition throw {A} (e : JsError) : M A := fun w => (Throw e, w).
Definition get_world : M World := fun w => (Ok w, w).
Definition modify_world (f : World -> World) : M unit := fun w => (Ok tt, f w).
Definition emit (e : Effect) : M unit := modify_world (World_emit e).

Definition succeeds {A} (r : Outcome A * World) : bool :=
  match r with (Ok _, _) => true | (Throw _, _) => false end.

(** Member access [o.m] on a value that may be [undefined]. *)
Definition deref (o : option loc) : M loc :=
  match o with
  | Some l => mret l
  | None => throw TypeError
  end.

(** *** Konva primitives *)

Definition Konva_read {A} (f : Konva.Node -> A) (n : loc) : M A :=
  w ← get_world;
  match nodes w !! n with
  | Some nd => mret (f nd)
  | None => throw InvalidReference
  end.

Definition Konva_write (f : Konva.Node -> Konva.Node) (n : loc) : M unit :=
  w ← get_world;
  match nodes w !! n with
  | Some nd => modify_world (World_with_nodes (<[n := f nd]> (nodes w)))
  | None => throw InvalidReference
  end.

(** [new Konva.Group(config)], [new Konva.Layer()], [new Konva.Stage(..)]:
    a fresh node with the given attributes. *)
Definition Konva_new (config : Konva.Node) : M loc :=
  w ← get_world;
  modify_world (World_with_nodes (nodes w ++ [config]));;
  mret (length (nodes w)).

(** [node.visible(b)] *)
Definition Konva_visible (n : loc) (b : bool) : M unit :=
  Konva_write (Konva.with_visible b) n;;
  emit (EVisible n b).
(** [node.visible()] *)
Definition Konva_get_visible (n : loc) : M bool := Konva_read Konva.visible n.
(** [node.width()], [node.height()] *)
Definition Konva_width (n : loc) : M Q := Konva_read Konva.width n.
Definition Konva_height (n : loc) : M Q := Konva_read Konva.height n.
(** [node.offsetX(v)], [node.offsetY(v)] *)
Definition Konva_offsetX (n : loc) (v : Q) : M unit := Konva_write (Konva.with_offsetX v) n.
Definition Konva_offsetY (n : loc) (v : Q) : M unit := Konva_write (Konva.with_offsetY v) n.
(** [node.rotation(v)], [node.scaleX(v)], [node.scaleY(v)], [node.x(v)], [node.y(v)] *)
Definition Konva_rotation (n : loc) (v : Q) : M unit := Konva_write (Konva.with_rotation v) n.
Definition Konva_scaleX (n : loc) (v : Q) : M unit := Konva_write (Konva.with_scaleX v) n.
Definition Konva_scaleY (n : loc) (v : Q) : M unit := Konva_write (Konva.with_scaleY v) n.
Definition Konva_x (n : loc) (v : Q) : M unit := Konva_write (Konva.with_x v) n.
Definition Konva_y (n : loc) (v : Q) : M unit := Konva_write (Konva.with_y v) n.
(** [node.getLayer()] *)
Definition Konva_getLayer (n : loc) : M (option loc) := Konva_read Konva.layer n.
(** [layer.draw()] *)
Definition Konva_draw (l : loc) : M unit := emit (EDraw l).
(** [layer.add(node)]: the node is now attached to the layer. *)
Definition Konva_add (l : loc) (n : loc) : M unit :=
  Konva_write (Konva.with_layer (Some l)) n.
(** [new Konva.Layer()]: for a layer, [getLayer()] is the layer itself. *)
Definition Konva_new_Layer : M loc :=
  l ← Konva_new Konva.default;
  Konva_write (Konva.with_layer (Some l)) l;;
  mret l.
(** [stage.add(layer)]: both must be live nodes; none of the modelled
    attributes changes. *)
Definition Konva_stage_add (stage layer : loc) : M unit :=
  Konva_read Konva.visible stage;;
  Konva_read Konva.visible layer;;
  mret tt.

(** *** The store of [Object] instances *)

Definition Object_read {A} (f : Object -> A) (this : loc) : M A :=
  w ← get_world;
  match objects w !! this with
  | Some o => mret (f o)
  | None => throw InvalidReference
  end.

Definition Object_write (f : Object -> Object) (this : loc) : M unit :=
  w ← get_world;
  match objects w !! this with
  | Some o => modify_world (World_with_objects (<[this := f o]> (objects w)))
  | None => throw InvalidReference
  end.

Definition Object_alloc (o : Object) : M loc :=
  w ← get_world;
  modify_world (World_with_objects (objects w ++ [o]));;
  mret (length (objects w)).

(** ** Screens *)

(** [type Screen = { type: "menu" } | { type: "game" }] *)
Inductive Screen : Type :=
  | ScreenMenu
  | ScreenGame.

(** The [type] field of a [Screen] value, the string the [switch] of
    [switchToScreen] looks at. *)
Definition Screen_type (s : Screen) : string :=
  match s with
  | ScreenMenu => "menu"%string
  | ScreenGame => "game"%string
  end.

(** [interface View { getGroup(): Group; show(): void; hide(): void }] *)
Class View (V : Type) : Type := {
  getGroup : V -> loc;
  show : V -> M unit;
  hide : V -> M unit
}.

(** [abstract class ScreenController]: [getView] is abstract, [show] and
    [hide] are inherited as they stand. *)
Class ScreenController (C : Type) : Type := {
  ViewOf : Type;
  ViewOf_View :: View ViewOf;
  getView : C -> ViewOf
}.

Definition ScreenController_show {C} `{ScreenController C} (this : C) : M unit :=
  show (getView this).
Definition ScreenController_hide {C} `{ScreenController C} (this : C) : M unit :=
  hide (getView this).

(** *** MenuScreenView.ts *)

Record MenuScreenView : Type := mkMenuScreenView {
  MenuScreenView_group : loc
}.

(** The constructor builds the group with [{ visible: true }].  The title
    text and the start button it then adds are children of the group;
    they never touch the group's own attributes and are left out. *)
Definition MenuScreenView_constructor : M MenuScreenView :=
  g ← Konva_new (Konva.with_visible true Konva.default);
  mret (mkMenuScreenView g).

Definition MenuScreenView_show (this : MenuScreenView) : M unit :=
  Konva_visible (MenuScreenView_group this) true;;
  l ← Konva_getLayer (MenuScreenView_group this);
  match l with
  | Some l => Konva_draw l
  | None => mret tt
  end.

Definition MenuScreenView_hide (this : MenuScreenView) : M unit :=
  Konva_visible (MenuScreenView_group this) false;;
  l ← Konva_getLayer (MenuScreenView_group this);
  match l with
  | Some l => Konva_draw l
  | None => mret tt
  end.

#[global] Instance MenuScreenView_View : View MenuScreenView := {
  getGroup := MenuScreenView_group;
  show := MenuScreenView_show;
  hide := MenuScreenView_hide
}.

(** *** GameScreenView.ts (not among the sources) *)

Record GameScreenView : Type := mkGameScreenView {
  GameScreenView_group : loc
}.

(** Modelled from the spec: the constructor of [GameScreenView], whose
    file is missing.  The view owns exactly one top-level group, and a
    controller that is not the startup screen starts hidden. *)
Definition GameScreenView_constructor : M GameScreenView :=
  g ← Konva_new (Konva.with_visible false Konva.default);
  mret (mkGameScreenView g).

(** Modelled from the spec: [GameScreenView.show()], whose file is
    missing: make the container visible, then request a redraw; a view
    that is not attached to a layer skips the redraw. *)
Definition GameScreenView_show (this : GameScreenView) : M unit :=
  Konva_visible (GameScreenView_group this) true;;
  l ← Konva_getLayer (GameScreenView_group this);
  match l with
  | Some l => Konva_draw l
  | None => mret tt
  end.

(** Modelled from the spec: [GameScreenView.hide()], whose file is
    missing: make the container invisible, then request a redraw. *)
Definition GameScreenView_hide (this : GameScreenView) : M unit :=
  Konva_visible (GameScreenView_group this) false;;
  l ← Konva_getLayer (GameScreenView_group this);
  match l with
  | Some l => Konva_draw l
  | None => mret tt
  end.

#[global] Instance GameScreenView_View : View GameScreenView := {
  getGroup := GameScreenView_group;
  show := GameScreenView_show;
  hide := GameScreenView_hide
}.

(** *** MenuScreenController.ts *)

(** The controller's [screenSwitcher] field points back at the [App]
    that owns it; the back pointer is the [App] argument of
    [MenuScreenController_handleStartClick] below. *)
Record MenuScreenController : Type := mkMenuScreenController {
  MenuScreenController_view : MenuScreenView
}.

Definition MenuScreenController_constructor : M MenuScreenController :=
  v ← MenuScreenView_constructor;
  mret (mkMenuScreenController v).

#[global] Instance MenuScreenController_ScreenController :
  ScreenController MenuScreenController := {
  ViewOf := MenuScreenView;
  getView := MenuScreenController_view
}.

(** ** What the missing files provide *)

(** [STAGE_WIDTH] and [STAGE_HEIGHT] of constants.ts, which is not among
    the sources. *)
Class Constants : Type := {
  STAGE_WIDTH : Q;
  STAGE_HEIGHT : Q
}.

(** [GameScreenModel] of GameScreenModel.ts, which is not among the
    sources: on the type of the state a game run keeps, the state after
    [new GameScreenModel()] and what [reset()] makes of a state. *)
Class GameScreenModelOps (GameScreenModel : Type) : Type := {
  GameScreenModel_constructor : GameScreenModel;
  GameScreenModel_reset : GameScreenModel -> GameScreenModel
}.

Section Program.

Context {constants : Constants}.
Context {GameScreenModel : Type} {ops : GameScreenModelOps GameScreenModel}.

(** *** class Object *)

(** [this._image.m]: read the field, then access a member of it. *)
Definition Object_this_image (this : loc) : M loc :=
  i ← Object_read _image this;
  deref i.

(** [constructor(image, rank = 1, x = STAGE_WIDTH / 2, y = STAGE_HEIGHT / 2)];
    an omitted argument is [None]. *)
Definition Object_constructor (image : option loc) (rank x y : option Q) : M loc :=
  let rank := default 1%Q rank in
  let x := default (STAGE_WIDTH / 2)%Q x in
  let y := default (STAGE_HEIGHT / 2)%Q y in
  w ← get_world;
  modify_world (World_with_ID (ID w + 1)%Z);;
  this ← Object_alloc (mkObject (ID w) rank 0 1 x y image);
  g ← Object_this_image this;
  g' ← Object_this_image this;
  wd ← Konva_width g';
  Konva_offsetX g (wd / 2)%Q;;
  g ← Object_this_image this;
  g' ← Object_this_image this;
  ht ← Konva_height g';
  Konva_offsetY g (ht / 2)%Q;;
  mret this.

Definition Object_get_Id (this : loc) : M Z := Object_read _Id this.

Definition Object_get_rank (this : loc) : M Q := Object_read _rank this.
Definition Object_set_rank (this : loc) (value : Q) : M unit :=
  Object_write (Object_with_rank value) this.

Definition Object_get_rotation (this : loc) : M Q := Object_read _rotation this.
Definition Object_set_rotation (this : loc) (value : Q) : M unit :=
  Object_write (Object_with_rotation value) this;;
  g ← Object_this_image this;
  r ← Object_read _rotation this;
  Konva_rotation g r.

Definition Object_get_scale (this : loc) : M Q := Object_read _scale this.
Definition Object_set_scale (this : loc) (value : Q) : M unit :=
  Object_write (Object_with_scale value) this;;
  g ← Object_this_image this;
  Konva_scaleX g value;;
  g ← Object_this_image this;
  Konva_scaleY g value.

Definition Object_get_x (this : loc) : M Q := Object_read _x this.
Definition Object_set_x (this : loc) (value : Q) : M unit :=
  Object_write (Object_with_x value) this;;
  g ← Object_this_image this;
  Konva_x g value.

Definition Object_get_y (this : loc) : M Q := Object_read _y this.
Definition Object_set_y (this : loc) (value : Q) : M unit :=
  Object_write (Object_with_y value) this;;
  g ← Object_this_image this;
  Konva_y g value.

Definition Object_get_image (this : loc) : M (option loc) := Object_read _image this.
Definition Object_set_image (this : loc) (value : option loc) : M unit :=
  Object_write (Object_with_image value) this.

(** *** GameScreenController.ts *)

Record GameScreenController : Type := mkGameScreenController {
  GameScreenController_model : GameScreenModel;
  GameScreenController_view : GameScreenView
}.

Definition GameScreenController_constructor : M GameScreenController :=
  let model := GameScreenModel_constructor in
  view ← GameScreenView_constructor;
  mret (mkGameScreenController model view).

#[global] Instance GameScreenController_ScreenController :
  ScreenController GameScreenController := {
  ViewOf := GameScreenView;
  getView := GameScreenController_view
}.

(** [startGame()]: [this.model.reset()], then [this.view.show()].  The
    model is a field of the controller, so the controller with the
    reset model is returned. *)
Definition GameScreenController_startGame (this : GameScreenController)
  : M GameScreenController :=
  emit EReset;;
  let this := mkGameScreenController
                (GameScreenModel_reset (GameScreenController_model this))
                (GameScreenController_view this) in
  show (GameScreenController_view this);;
  mret this.

(** *** main.ts *)

Record App : Type := mkApp {
  App_stage : loc;
  App_layer : loc;
  App_menuController : MenuScreenController;
  App_gameController : GameScreenController
}.

Definition App_with_gameController (g : GameScreenController) (a : App) : App :=
  mkApp (App_stage a) (App_layer a) (App_menuController a) g.

(** [constructor(container: string)] *)
Definition App_constructor (container : string) : M App :=
  stage ← Konva_new (Konva.with_size STAGE_WIDTH STAGE_HEIGHT Konva.default);
  layer ← Konva_new_Layer;
  Konva_stage_add stage layer;;
  menuController ← MenuScreenController_constructor;
  gameController ← GameScreenController_constructor;
  Konva_add layer (getGroup (getView menuController));;
  Konva_add layer (getGroup (getView gameController));;
  Konva_draw layer;;
  show (getView menuController);;
  mret (mkApp stage layer menuController gameController).

(** The body of [switchToScreen] as it runs on the value of
    [screen.type]: the two [hide] calls, then the [switch], which has
    no [default] branch. *)
Definition App_switchToScreen_type (this : App) (type : string) : M App :=
  ScreenController_hide (App_menuController this);;
  ScreenController_hide (App_gameController this);;
  if String.eqb type "menu"%string then
    ScreenController_show (App_menuController this);;
    mret this
  else if String.eqb type "game"%string then
    g ← GameScreenController_startGame (App_gameController this);
    mret (App_with_gameController g this)
  else
    mret this.

(** [switchToScreen(screen: Screen): void] *)
Definition App_switchToScreen (this : App) (screen : Screen) : M App :=
  App_switchToScreen_type this (Screen_type screen).

(** [MenuScreenController.handleStartClick()], the click handler of the
    start button, and [GameScreenController.endGame()]; [app] is the
    controller's [screenSwitcher]. *)
Definition MenuScreenController_handleStartClick (app : App) : M App :=
  App_switchToScreen app ScreenGame.
Definition GameScreenController_endGame (app : App) : M App :=
  App_switchToScreen app ScreenMenu.

(** A run of navigation requests, one after the other, given by the
    tags they carry. *)
Fixpoint App_switchAll_type (this : App) (types : list string) : M App :=
  match types with
  | [] => mret this
  | t :: rest =>
      this ← App_switchToScreen_type this t;
      App_switchAll_type this rest
  end.

(** The tags that have a [case] in the [switch] of [switchToScreen]. *)
Definition Screen_recognized (type : string) : bool :=
  String.eqb type "menu"%string || String.eqb type "game"%string.

(** *** Observations *)

(** What [view.getGroup().visible()] reports in a store. *)
Definition reports_visible {V} `{View V} (w : World) (v : V) : bool :=
  match nodes w !! getGroup v with
  | Some n => Konva.visible n
  | None => false
  end.

(** How many of the app's controllers have a view that reports visible. *)
Definition visible_views (w : World) (a : App) : nat :=
  (if reports_visible w (getView (App_menuController a)) then 1 else 0) +
  (if reports_visible w (getView (App_gameController a)) then 1 else 0).

(** A call of [switchToScreen] changes node attributes only through
    the [visible] writes it emits, so the stores it passes through are
    recovered by replaying its effects one at a time. *)
Definition Effect_apply (ns : list Konva.Node) (e : Effect) : list Konva.Node :=
  match e with
  | EVisible n b => alter (Konva.with_visible b) n ns
  | EDraw _ => ns
  | EReset => ns
  end.

Definition replay (es : list Effect) (ns : list Konva.Node) : list Konva.Node :=
  foldl Effect_apply ns es.

Definition node_visible (ns : list Konva.Node) (n : loc) : bool :=
  match ns !! n with
  | Some nd => Konva.visible nd
  | None => false
  end.

(** The redraw request a view issues after a write to its group. *)
Definition redraw (nd : Konva.Node) : list Effect :=
  match Konva.layer nd with
  | Some l => [EDraw l]
  | None => []
  end.

(** The store after a view wrote [b] to its group [n], which held
    [nd], and asked for the redraw. *)
Definition World_after_visible (n : loc) (b : bool) (nd : Konva.Node) (w : World) : World :=
  mkWorld (ID w) (<[n := Konva.with_visible b nd]> (nodes w)) (objects w)
          (trace w ++ EVisible n b :: redraw nd).

(** The effects of the two [hide] calls that open [switchToScreen], on
    groups [gm] (menu) and [gg] (game) that held [ndm] and [ndg]. *)
Definition hide_effects (gm gg : loc) (ndm ndg : Konva.Node) : list Effect :=
  (EVisible gm false :: redraw ndm) ++ (EVisible gg false :: redraw ndg).

(** The effects of the entry action the [switch] dispatches to. *)
Definition entry_effects (gm gg : loc) (ndm ndg : Konva.Node) (screen : Screen) : list Effect :=
  match screen with
  | ScreenMenu => EVisible gm true :: redraw ndm
  | ScreenGame => EReset :: EVisible gg true :: redraw ndg
  end.

(** Is an effect a redraw request? *)
Definition Effect_is_draw (e : Effect) : bool :=
  match e with
  | EDraw _ => true
  | _ => false
  end.

(** Does an effect make some node visible? *)
Definition Effect_shows (e : Effect) : bool :=
  match e with
  | EVisible _ true => true
  | _ => false
  end.

(** The two views of an app are distinct live groups of the store. *)
Definition App_wf (w : World) (a : App) : Prop :=
  getGroup (getView (App_menuController a)) <> getGroup (getView (App_gameController a))
  /\ is_Some (nodes w !! getGroup (getView (App_menuController a)))
  /\ is_Some (nodes w !! getGroup (getView (App_gameController a))).

(** *** The stores a call of [switchToScreen] leaves *)

(** The store after the two [hide] calls, on groups [gm] and [gg] that
    held [ndm] and [ndg]. *)
Definition World_hidden (gm gg : loc) (ndm ndg : Konva.Node) (w : World) : World :=
  World_after_visible gg false ndg (World_after_visible gm false ndm w).

(** The store after the entry action that follows them. *)
Definition World_switched (gm gg : loc) (ndm ndg : Konva.Node) (screen : Screen) (w : World)
  : World :=
  match screen with
  | ScreenMenu =>
      World_after_visible gm true (Konva.with_visible false ndm) (World_hidden gm gg ndm ndg w)
  | ScreenGame =>
      World_after_visible gg true (Konva.with_visible false ndg)
                          (World_emit EReset (World_hidden gm gg ndm ndg w))
  end.

(** What a list of effects does to the visibility of one live group:
    the last write to it wins. *)
Fixpoint visible_after (g : loc) (v : bool) (es : list Effect) : bool :=
  match es with
  | [] => v
  | EVisible n b :: es => visible_after g (if decide (n = g) then b else v) es
  | _ :: es => visible_after g v es
  end.

(** The store in which the constructor body runs once [ID++] is done and
    the fields are assigned. *)
Definition World_constructing (o : Object) (w : World) : World :=
  mkWorld (ID w + 1)%Z (nodes w) (objects w ++ [o]) (trace w).

(** The handle once the constructor has centred its origin. *)
Definition Konva_centred (nd : Konva.Node) : Konva.Node :=
  Konva.with_offsetY (Konva.height nd / 2)%Q (Konva.with_offsetX (Konva.width nd / 2)%Q nd).

(** The store after a setter stored the new field value. *)
Definition World_after_field (this : loc) (o : Object) (w : World) : World :=
  World_with_objects (<[this := o]> (objects w)) w.

(** *** Identities *)

(** What a client of the class can do, one statement at a time: make a
    Konva group to use as a handle, construct an entity, read or write a
    property of an entity. *)
Inductive Object_call : Type :=
  | CallNewGroup (config : Konva.Node)
  | CallNew (image : option loc) (rank x y : option Q)
  | CallGetId (this : loc)
  | CallGetRank (this : loc)
  | CallSetRank (this : loc) (value : Q)
  | CallGetRotation (this : loc)
  | CallSetRotation (this : loc) (value : Q)
  | CallGetScale (this : loc)
  | CallSetScale (this : loc) (value : Q)
  | CallGetX (this : loc)
  | CallSetX (this : loc) (value : Q)
  | CallGetY (this : loc)
  | CallSetY (this : loc) (value : Q)
  | CallGetImage (this : loc)
  | CallSetImage (this : loc) (value : option loc).

Definition Object_perform (c : Object_call) : M unit :=
  match c with
  | CallNewGroup config => Konva_new config;; mret tt
  | CallNew image rank x y => Object_constructor image rank x y;; mret tt
  | CallGetId this => Object_get_Id this;; mret tt
  | CallGetRank this => Object_get_rank this;; mret tt
  | CallSetRank this value => Object_set_rank this value
  | CallGetRotation this => Object_get_rotation this;; mret tt
  | CallSetRotation this value => Object_set_rotation this value
  | CallGetScale this => Object_get_scale this;; mret tt
  | CallSetScale this value => Object_set_scale this value
  | CallGetX this => Object_get_x this;; mret tt
  | CallSetX this value => Object_set_x this value
  | CallGetY this => Object_get_y this;; mret tt
  | CallSetY this value => Object_set_y this value
  | CallGetImage this => Object_get_image this;; mret tt
  | CallSetImage this value => Object_set_image this value
  end.

(** A statement that throws ends its event handler; the store stays as
    the statement left it and the next one runs on it. *)
Definition client_step (w : World) (c : Object_call) : World :=
  snd (run (Object_perform c) w).

Definition client_run (calls : list Object_call) (w : World) : World :=
  foldl client_step w calls.

(** [new Object(...)] once per argument tuple, in order. *)
Fixpoint Object_construct_all (args : list (option loc * option Q * option Q * option Q))
  : M (list loc) :=
  match args with
  | [] => mret []
  | (image, rank, x, y) :: rest =>
      this ← Object_constructor image rank x y;
      others ← Object_construct_all rest;
      mret (this :: others)
  end.

(** The identities of the entities of a store, by location. *)
Definition ids_of (w : World) : list Z := _Id <$> objects w.

(** A computation that leaves the counter and every identity alone,
    whether it returns or throws. *)
Definition keeps_ids {A} (c : M A) : Prop :=
  forall w, ids_of (snd (run c w)) = ids_of w /\ ID (snd (run c w)) = ID w.

(** The counter has not gone below zero, and the identities in a store
    are pairwise distinct and below the counter. *)
Definition ids_inv (w : World) : Prop :=
  NoDup (ids_of w) /\ (0 <= ID w)%Z /\ Forall (fun i => (0 <= i < ID w)%Z) (ids_of w).

(** The handle of a constructor call is a live node. *)
Definition handle_live (w : World) (arg : option loc * option Q * option Q * option Q) : Prop :=
  match arg with
  | (Some g, _, _, _) => is_Some (nodes w !! g)
  | (None, _, _, _) => False
  end.

(** *** Further vocabulary for the properties *)

(** The shape the four transform setters share: store the value in a
    field of the entity with [fo], then write it to the handle with
    [fn]. *)
Definition writes_through
    (set : loc -> Q -> M unit)
    (fo : Q -> Object -> Object) (fn : Q -> Konva.Node -> Konva.Node) : Prop :=
  forall w this o g nd value,
    objects w !! this = Some o -> _image o = Some g -> nodes w !! g = Some nd ->
    run (set this value) w =
    (Ok tt, World_with_nodes (<[g := fn value nd]> (nodes w))
                             (World_after_field this (fo value o) w)).

(** What [set scale] writes to the handle. *)
Definition Konva_with_scale (value : Q) (nd : Konva.Node) : Konva.Node :=
  Konva.with_scaleY value (Konva.with_scaleX value nd).

(** The four transform setters with the field and the attribute each
    one writes. *)
Definition Object_transform_setters
  : list ((loc -> Q -> M unit) * (Q -> Object -> Object) * (Q -> Konva.Node -> Konva.Node)) :=
  [ (Object_set_rotation, Object_with_rotation, Konva.with_rotation);
    (Object_set_scale, Object_with_scale, Konva_with_scale);
    (Object_set_x, Object_with_x, Konva.with_x);
    (Object_set_y, Object_with_y, Konva.with_y) ].

(** A computation that issues no effect and leaves the [visible]
    attribute and the layer of every node it finds alone, whether it
    returns or throws. *)
Definition keeps_view {A} (c : M A) : Prop :=
  forall w,
    trace (snd (run c w)) = trace w
    /\ forall n nd,
         nodes w !! n = Some nd ->
         exists nd',
           nodes (snd (run c w)) !! n = Some nd'
           /\ Konva.visible nd' = Konva.visible nd
           /\ Konva.layer nd' = Konva.layer nd.

(** A run of [show()] ([true]) and [hide()] ([false]) calls on a menu
    view, in order. *)
Fixpoint MenuScreenView_calls (this : MenuScreenView) (calls : list bool) : M unit :=
  match calls with
  | [] => mret tt
  | true :: rest => MenuScreenView_show this;; MenuScreenView_calls this rest
  | false :: rest => MenuScreenView_hide this;; MenuScreenView_calls this rest
  end.

(** Both view groups of an app are attached to the app's layer. *)
Definition App_attached (w : World) (a : App) : Prop :=
  Konva.layer <$> nodes w !! getGroup (getView (App_menuController a)) = Some (Some (App_layer a))
  /\ Konva.layer <$> nodes w !! getGroup (getView (App_gameController a)) = Some (Some (App_layer a)).

(** What happens on the page once the app is built, one event at a
    time: a navigation request, or a statement of a client of the
    [Object] class. *)
Inductive Page_call : Type :=
  | PageSwitch (screen : Screen)
  | PageObject (call : Object_call).

(** One event on the app and the store.  [switchToScreen] hands back the
    app with the controller [startGame] returned; a statement that
    throws leaves the app as it was. *)
Definition Page_step (s : App * World) (call : Page_call) : App * World :=
  match call with
  | PageSwitch screen =>
      match run (App_switchToScreen (fst s) screen) (snd s) with
      | (Ok a, w) => (a, w)
      | (Throw _, w) => (fst s, w)
      end
  | PageObject c => (fst s, client_step (snd s) c)
  end.

Definition Page_run (calls : list Page_call) (s : App * World) : App * World :=
  foldl Page_step s calls.

(** The state between two events that the app keeps: two distinct live
    groups, attached to the layer, exactly one of them visible. *)
Definition Page_inv (s : App * World) : Prop :=
  App_wf (snd s) (fst s) /\ App_attached (snd s) (fst s) /\ visible_views (snd s) (fst s) = 1.


End Program.

Arguments App : clear implicits.
Arguments GameScreenController : clear implicits.

(** * Concrete runs *)

Module Demo.

(** The stage is 800 by 600; the game model is a score that [reset]
    puts back to zero. *)
#[export] Instance demo_constants : Constants := {|
  STAGE_WIDTH := 800;
  STAGE_HEIGHT := 600
|}.

#[export] Instance demo_model : GameScreenModelOps nat := {|
  GameScreenModel_constructor := 5;
  GameScreenModel_reset := fun score => 0
|}.

(** The app of [new App("container")] on the loaded page, and the store
    it leaves: stage 0, layer 1, menu group 2, game group 3. *)
Definition demo_app : App nat :=
  mkApp 0 1 (mkMenuScreenController (mkMenuScreenView 2))
        (mkGameScreenController 5 (mkGameScreenView 3)).

Definition demo_world : World :=
  snd (run (App_constructor "container") World_initial).

(** Two groups to use as handles, 10 by 20 and 4 by 6, both at the
    origin, and the store after an entity was constructed on the first
    with every default. *)
Definition demo_handles : World :=
  snd (run (Konva_new (Konva.with_size 10 20 Konva.default);;
            Konva_new (Konva.with_size 4 6 Konva.default)) World_initial).

Definition demo_entity : World :=
  snd (run (Object_constructor (Some 0) None None None) demo_handles).

(** The first handle as the constructor left it, and the entity on it. *)
Definition demo_handle : Konva.Node :=
  Konva.with_offsetY (20 / 2) (Konva.with_offsetX (10 / 2) (Konva.with_size 10 20 Konva.default)).

Definition demo_object : Object :=
  mkObject 0 1 0 1 (800 / 2) (600 / 2) (Some 0).

(** A second entity on the same 10 by 20 group, with rank 2 at (1, 1),
    and the store after its construction. *)
Definition demo_shared : World :=
  snd (run (Object_constructor (Some 0) (Some 2%Q) (Some 1%Q) (Some 1%Q)) demo_entity).

Definition demo_object' : Object :=
  mkObject 1 2 0 1 1 1 (Some 0).

(** The 4 by 6 group, the menu group and the game group of the stores
    above. *)
Definition demo_handle' : Konva.Node := Konva.with_size 4 6 Konva.default.

Definition demo_menu_group : Konva.Node :=
  Konva.with_layer (Some 1) (Konva.with_visible true Konva.default).


End Demo.

(** * Properties *)

Section Theorems.

Context {constants : Constants}.
Context {GameScreenModel : Type} {ops : GameScreenModelOps GameScreenModel}.

(** ** Stepping through the monad *)

Lemma run_bind {A B} (c : M A) (k : A -> M B) (w : World) :
  run (c ≫= k) w =
  match run c w with
  | (Ok a, w') => run (k a) w'
  | (Throw e, w') => (Throw e, w')
  end.
Proof. reflexivity. Qed.

Lemma run_bind_ok {A B} (c : M A) (k : A -> M B) (w w' : World) (a : A) :
  run c w = (Ok a, w') -> run (c ≫= k) w = run (k a) w'.
Proof. intros H. rewrite run_bind, H. reflexivity. Qed.

Lemma run_bind_throw {A B} (c : M A) (k : A -> M B) (w w' : World) (e : JsError) :
  run c w = (Throw e, w') -> run (c ≫= k) w = (Throw e, w').
Proof. intros H. rewrite run_bind, H. reflexivity. Qed.

Lemma Konva_read_live {A} (f : Konva.Node -> A) n nd w :
  nodes w !! n = Some nd -> run (Konva_read f n) w = (Ok (f nd), w).
Proof. intros H. unfold Konva_read, run, mbind, M_bind; simpl. rewrite H. reflexivity. Qed.

Lemma Konva_write_live (f : Konva.Node -> Konva.Node) n nd w :
  nodes w !! n = Some nd ->
  run (Konva_write f n) w = (Ok tt, World_with_nodes (<[n := f nd]> (nodes w)) w).
Proof. intros H. unfold Konva_write, run, mbind, M_bind; simpl. rewrite H. reflexivity. Qed.

Lemma Konva_read_stale {A} (f : Konva.Node -> A) n w :
  nodes w !! n = None -> run (Konva_read f n) w = (Throw InvalidReference, w).
Proof. intros H. unfold Konva_read, run, mbind, M_bind; simpl. rewrite H. reflexivity. Qed.

Lemma Object_read_live {A} (f : Object -> A) this o w :
  objects w !! this = Some o -> run (Object_read f this) w = (Ok (f o), w).
Proof. intros H. unfold Object_read, run, mbind, M_bind; simpl. rewrite H. reflexivity. Qed.

Lemma Object_write_live (f : Object -> Object) this o w :
  objects w !! this = Some o ->
  run (Object_write f this) w = (Ok tt, World_with_objects (<[this := f o]> (objects w)) w).
Proof. intros H. unfold Object_write, run, mbind, M_bind; simpl. rewrite H. reflexivity. Qed.

Lemma Object_this_image_live this o g w :
  objects w !! this = Some o -> _image o = Some g ->
  run (Object_this_image this) w = (Ok g, w).
Proof.
  intros Ho Hg. unfold Object_this_image.
  rewrite (run_bind_ok _ _ _ _ _ (Object_read_live _image _ _ _ Ho)), Hg.
  reflexivity.
Qed.

Lemma Object_this_image_absent this o w :
  objects w !! this = Some o -> _image o = None ->
  run (Object_this_image this) w = (Throw TypeError, w).
Proof.
  intros Ho Hg. unfold Object_this_image.
  rewrite (run_bind_ok _ _ _ _ _ (Object_read_live _image _ _ _ Ho)), Hg.
  reflexivity.
Qed.

(** A write to a view's group followed by the redraw request, the body
    shared by every [show] and [hide]. *)
Lemma Konva_visible_live n nd b w :
  nodes w !! n = Some nd ->
  run (Konva_visible n b) w =
  (Ok tt, mkWorld (ID w) (<[n := Konva.with_visible b nd]> (nodes w)) (objects w)
                  (trace w ++ [EVisible n b])).
Proof.
  intros H. unfold Konva_visible.
  rewrite (run_bind_ok _ _ _ _ _ (Konva_write_live _ _ _ _ H)). reflexivity.
Qed.

Lemma lookup_insert_live {A} (l : list A) (i : nat) (a b : A) :
  l !! i = Some a -> <[i := b]> l !! i = Some b.
Proof. intros H. apply list_lookup_insert_eq. eapply lookup_lt_Some, H. Qed.

Lemma view_write_live (g : loc) (b : bool) nd w :
  nodes w !! g = Some nd ->
  run (Konva_visible g b;;
       l ← Konva_getLayer g;
       match l with
       | Some l => Konva_draw l
       | None => mret tt
       end) w = (Ok tt, World_after_visible g b nd w).
Proof.
  intros H.
  rewrite (run_bind_ok _ _ _ _ _ (Konva_visible_live _ _ b _ H)).
  unfold Konva_getLayer.
  erewrite run_bind_ok; cycle 1.
  { apply Konva_read_live. simpl. eapply lookup_insert_live, H. }
  unfold World_after_visible, redraw. simpl.
  destruct (Konva.layer nd); simpl.
  - unfold run, Konva_draw, emit, modify_world, World_emit. simpl.
    rewrite <- app_assoc. reflexivity.
  - reflexivity.
Qed.

Lemma MenuScreenView_show_live v nd w :
  nodes w !! MenuScreenView_group v = Some nd ->
  run (MenuScreenView_show v) w = (Ok tt, World_after_visible (MenuScreenView_group v) true nd w).
Proof. apply view_write_live. Qed.

Lemma MenuScreenView_hide_live v nd w :
  nodes w !! MenuScreenView_group v = Some nd ->
  run (MenuScreenView_hide v) w = (Ok tt, World_after_visible (MenuScreenView_group v) false nd w).
Proof. apply view_write_live. Qed.

Lemma GameScreenView_show_live v nd w :
  nodes w !! GameScreenView_group v = Some nd ->
  run (GameScreenView_show v) w = (Ok tt, World_after_visible (GameScreenView_group v) true nd w).
Proof. apply view_write_live. Qed.

Lemma GameScreenView_hide_live v nd w :
  nodes w !! GameScreenView_group v = Some nd ->
  run (GameScreenView_hide v) w = (Ok tt, World_after_visible (GameScreenView_group v) false nd w).
Proof. apply view_write_live. Qed.

Section Switch.

Context (w : World) (a : App GameScreenModel) (ndm ndg : Konva.Node).
Let gm := MenuScreenView_group (MenuScreenController_view (App_menuController a)).
Let gg := GameScreenView_group (GameScreenController_view (App_gameController a)).
Hypothesis Hne : gm <> gg.
Hypothesis Hm : nodes w !! gm = Some ndm.
Hypothesis Hg : nodes w !! gg = Some ndg.

Lemma hidden_lookup_menu :
  nodes (World_hidden gm gg ndm ndg w) !! gm = Some (Konva.with_visible false ndm).
Proof.
  simpl. rewrite list_lookup_insert_ne by (intros E; apply Hne; symmetry; exact E).
  eapply lookup_insert_live, Hm.
Qed.

Lemma hidden_lookup_game :
  nodes (World_hidden gm gg ndm ndg w) !! gg = Some (Konva.with_visible false ndg).
Proof.
  simpl. apply lookup_insert_live with (a := ndg).
  rewrite list_lookup_insert_ne by exact Hne. exact Hg.
Qed.

Lemma hide_all_live (k : M (App GameScreenModel)) :
  run (ScreenController_hide (App_menuController a);;
       ScreenController_hide (App_gameController a);;
       k) w = run k (World_hidden gm gg ndm ndg w).
Proof.
  erewrite run_bind_ok; cycle 1.
  { apply MenuScreenView_hide_live, Hm. }
  erewrite run_bind_ok; cycle 1.
  { apply GameScreenView_hide_live. simpl.
    rewrite list_lookup_insert_ne by exact Hne. exact Hg. }
  reflexivity.
Qed.

Lemma App_switchToScreen_menu_live :
  run (App_switchToScreen a ScreenMenu) w =
  (Ok a, World_after_visible gm true (Konva.with_visible false ndm)
                             (World_hidden gm gg ndm ndg w)).
Proof.
  unfold App_switchToScreen, App_switchToScreen_type. rewrite hide_all_live. simpl.
  erewrite run_bind_ok; cycle 1.
  { apply MenuScreenView_show_live, hidden_lookup_menu. }
  reflexivity.
Qed.

Lemma GameScreenController_startGame_live w0 nd :
  nodes w0 !! gg = Some nd ->
  run (GameScreenController_startGame (App_gameController a)) w0 =
  (Ok (mkGameScreenController
         (GameScreenModel_reset (GameScreenController_model (App_gameController a)))
         (GameScreenController_view (App_gameController a))),
   World_after_visible gg true nd (World_emit EReset w0)).
Proof.
  intros H. unfold GameScreenController_startGame.
  erewrite run_bind_ok; cycle 1.
  { reflexivity. }
  erewrite run_bind_ok; cycle 1.
  { apply GameScreenView_show_live. exact H. }
  reflexivity.
Qed.

Lemma App_switchToScreen_game_live :
  run (App_switchToScreen a ScreenGame) w =
  (Ok (App_with_gameController
         (mkGameScreenController
            (GameScreenModel_reset (GameScreenController_model (App_gameController a)))
            (GameScreenController_view (App_gameController a))) a),
   World_after_visible gg true (Konva.with_visible false ndg)
                       (World_emit EReset (World_hidden gm gg ndm ndg w))).
Proof.
  unfold App_switchToScreen, App_switchToScreen_type. rewrite hide_all_live. simpl.
  erewrite run_bind_ok; cycle 1.
  { apply GameScreenController_startGame_live, hidden_lookup_game. }
  reflexivity.
Qed.

Lemma App_switchToScreen_type_other_live (t : string) :
  String.eqb t "menu"%string = false -> String.eqb t "game"%string = false ->
  run (App_switchToScreen_type a t) w = (Ok a, World_hidden gm gg ndm ndg w).
Proof.
  intros H1 H2. unfold App_switchToScreen_type. rewrite hide_all_live, H1, H2.
  reflexivity.
Qed.

Lemma App_switchToScreen_live (screen : Screen) :
  exists a',
    run (App_switchToScreen a screen) w = (Ok a', World_switched gm gg ndm ndg screen w).
Proof.
  destruct screen; eexists.
  - apply App_switchToScreen_menu_live.
  - apply App_switchToScreen_game_live.
Qed.

End Switch.

(** [reports_visible] is what the getter returns on a live group. *)
Lemma reports_visible_getter {V} `{View V} (v : V) w :
  is_Some (nodes w !! getGroup v) ->
  run (Konva_get_visible (getGroup v)) w = (Ok (reports_visible w v), w).
Proof.
  intros [nd Hn]. unfold Konva_get_visible, reports_visible.
  rewrite (Konva_read_live Konva.visible _ nd w Hn), Hn. reflexivity.
Qed.

Lemma App_wf_nodes w (a : App GameScreenModel) :
  App_wf w a ->
  exists ndm ndg,
    nodes w !! MenuScreenView_group (MenuScreenController_view (App_menuController a)) = Some ndm
    /\ nodes w !! GameScreenView_group (GameScreenController_view (App_gameController a)) = Some ndg.
Proof. intros (_ & [ndm Hm] & [ndg Hg]). exists ndm, ndg. split; assumption. Qed.

Lemma Screen_type_recognized (s : Screen) : Screen_recognized (Screen_type s) = true.
Proof. destruct s; reflexivity. Qed.

Lemma after_visible_lookup (g : loc) b nd nd0 w :
  nodes w !! g = Some nd0 ->
  nodes (World_after_visible g b nd w) !! g = Some (Konva.with_visible b nd).
Proof. intros H. unfold World_after_visible, nodes. eapply lookup_insert_live, H. Qed.

Lemma after_visible_lookup_ne (g n : loc) b nd w :
  g <> n -> nodes (World_after_visible g b nd w) !! n = nodes w !! n.
Proof. intros H. unfold World_after_visible, nodes at 1. apply list_lookup_insert_ne, H. Qed.

Ltac view_groups :=
  cbn [getGroup getView ViewOf_View MenuScreenView_View GameScreenView_View
       MenuScreenController_ScreenController GameScreenController_ScreenController
       App_menuController App_gameController App_with_gameController
       GameScreenController_view] in *.

(** One call of [switchToScreen] from a well-formed store: it returns,
    the views stay the same two groups, and the number of visible views
    is decided by the tag alone. *)
Lemma App_switchToScreen_type_spec w (a : App GameScreenModel) t :
  App_wf w a ->
  exists a' w',
    run (App_switchToScreen_type a t) w = (Ok a', w')
    /\ App_wf w' a'
    /\ visible_views w' a' = (if Screen_recognized t then 1 else 0).
Proof.
  intros Hwf. destruct (App_wf_nodes _ _ Hwf) as (ndm & ndg & Hm & Hg).
  destruct Hwf as (Hne & _ & _). view_groups.
  assert (Hne' : GameScreenView_group (GameScreenController_view (App_gameController a)) <>
                 MenuScreenView_group (MenuScreenController_view (App_menuController a)))
    by (intros E; apply Hne; symmetry; exact E).
  pose proof (hidden_lookup_menu w a ndm ndg Hne Hm) as Lm.
  pose proof (hidden_lookup_game w a ndm ndg Hne Hg) as Lg.
  unfold Screen_recognized.
  destruct (String.eqb t "menu"%string) eqn:E1; [| destruct (String.eqb t "game"%string) eqn:E2].
  - apply String.eqb_eq in E1. subst t.
    eexists _, _. split; [apply (App_switchToScreen_menu_live w a ndm ndg Hne Hm Hg) |].
    unfold App_wf, visible_views, reports_visible. view_groups.
    rewrite (after_visible_lookup _ _ _ _ _ Lm).
    rewrite (after_visible_lookup_ne _ _ _ _ _ Hne), Lg.
    repeat split; eauto.
  - apply String.eqb_eq in E2. subst t.
    eexists _, _. split; [apply (App_switchToScreen_game_live w a ndm ndg Hne Hm Hg) |].
    unfold App_wf, visible_views, reports_visible. view_groups.
    rewrite (after_visible_lookup _ _ _ _ (World_emit EReset _) Lg).
    rewrite (after_visible_lookup_ne _ _ _ _ _ Hne').
    change (nodes (World_emit EReset ?x)) with (nodes x). rewrite Lm.
    repeat split; eauto.
  - eexists _, _. split; [apply (App_switchToScreen_type_other_live w a ndm ndg Hne Hm Hg t E1 E2) |].
    unfold App_wf, visible_views, reports_visible. view_groups.
    rewrite Lm, Lg. repeat split; eauto.
Qed.

Lemma App_switchAll_type_wf ts : forall w (a : App GameScreenModel),
  App_wf w a ->
  exists a' w', run (App_switchAll_type a ts) w = (Ok a', w') /\ App_wf w' a'.
Proof.
  induction ts as [| t ts IH]; intros w a Hwf.
  - exists a, w. split; [reflexivity | exact Hwf].
  - destruct (App_switchToScreen_type_spec w a t Hwf) as (a1 & w1 & Hrun & Hwf1 & _).
    destruct (IH w1 a1 Hwf1) as (a2 & w2 & Hrun2 & Hwf2).
    exists a2, w2. split; [| exact Hwf2].
    simpl. rewrite (run_bind_ok _ _ _ _ _ Hrun). exact Hrun2.
Qed.

(** The app as [new App("container")] leaves it when the page loads. *)
Lemma App_constructor_initial container :
  exists a w,
    run (App_constructor container) World_initial = (Ok a, w)
    /\ App_wf w a
    /\ visible_views w a = 1.
Proof.
  eexists _, _. split; [reflexivity |].
  unfold App_wf, visible_views, reports_visible. simpl.
  repeat split; try discriminate; eauto.
Qed.

(** ** Navigation: one screen at a time *)

(** C1.  Start from the page as loaded, build the app, and let any run
    of navigation requests go by, whatever tags they carried.  Then
    every further [switchToScreen] with a [Screen] returns and leaves
    exactly one of the two views reporting visible, and a call with any
    tag whatsoever returns and leaves at most one. *)
Theorem App_switchToScreen_one_visible (container : string) (history : list string) :
  exists a w,
    run (a ← App_constructor container; App_switchAll_type a history) World_initial = (Ok a, w)
    /\ (forall screen : Screen, exists a' w',
          run (App_switchToScreen a screen) w = (Ok a', w')
          /\ visible_views w' a' = 1)
    /\ (forall type : string, exists a' w',
          run (App_switchToScreen_type a type) w = (Ok a', w')
          /\ visible_views w' a' <= 1).
Proof.
  destruct (App_constructor_initial container) as (a0 & w0 & Hrun0 & Hwf0 & _).
  destruct (App_switchAll_type_wf history w0 a0 Hwf0) as (a & w & Hrun & Hwf).
  exists a, w. split; [| split].
  - rewrite (run_bind_ok _ _ _ _ _ Hrun0). exact Hrun.
  - intros screen.
    destruct (App_switchToScreen_type_spec w a (Screen_type screen) Hwf)
      as (a' & w' & Hr & _ & Hv).
    exists a', w'. split; [exact Hr |].
    rewrite Hv, Screen_type_recognized. reflexivity.
  - intros type.
    destruct (App_switchToScreen_type_spec w a type Hwf) as (a' & w' & Hr & _ & Hv).
    exists a', w'. split; [exact Hr |].
    rewrite Hv. destruct (Screen_recognized type); lia.
Qed.

(** *** Replaying effects on two live groups *)

Lemma node_visible_alter_eq ns (g : loc) b :
  is_Some (ns !! g) -> node_visible (alter (Konva.with_visible b) g ns) g = b.
Proof.
  intros [nd H]. unfold node_visible. rewrite list_lookup_alter_eq, H. reflexivity.
Qed.

Lemma node_visible_alter_ne ns (g n : loc) b :
  n <> g -> node_visible (alter (Konva.with_visible b) n ns) g = node_visible ns g.
Proof.
  intros H. unfold node_visible. rewrite list_lookup_alter_ne by exact H. reflexivity.
Qed.

Lemma is_Some_alter (ns : list Konva.Node) (g n : loc) (f : Konva.Node -> Konva.Node) :
  is_Some (ns !! g) -> is_Some (alter f n ns !! g).
Proof.
  intros [nd H]. destruct (decide (n = g)) as [-> | Hne].
  - rewrite list_lookup_alter_eq, H. eauto.
  - rewrite list_lookup_alter_ne by exact Hne. eauto.
Qed.

Lemma node_visible_replay (g : loc) es : forall ns,
  is_Some (ns !! g) ->
  node_visible (replay es ns) g = visible_after g (node_visible ns g) es.
Proof.
  induction es as [| e es IH]; intros ns Hg; [reflexivity |].
  unfold replay in *. destruct e as [n b | l |]; simpl; try (apply IH; exact Hg).
  rewrite IH by (apply is_Some_alter; exact Hg).
  destruct (decide (n = g)) as [-> | Hne].
  - rewrite node_visible_alter_eq by exact Hg. reflexivity.
  - rewrite node_visible_alter_ne by exact Hne. reflexivity.
Qed.

Lemma replay_app es1 es2 ns : replay (es1 ++ es2) ns = replay es2 (replay es1 ns).
Proof. unfold replay. apply foldl_app. Qed.

Lemma replay_redraw nd ns : replay (redraw nd) ns = ns.
Proof. unfold redraw. destruct (Konva.layer nd); reflexivity. Qed.

Lemma replay_visible (g : loc) b nd es (ns : list Konva.Node) :
  ns !! g = Some nd ->
  replay (EVisible g b :: redraw nd ++ es) ns = replay es (<[g := Konva.with_visible b nd]> ns).
Proof.
  intros H. change (EVisible g b :: redraw nd ++ es) with ([EVisible g b] ++ redraw nd ++ es).
  rewrite !replay_app, replay_redraw. f_equal.
  unfold replay; simpl. apply list_eq. intros i.
  destruct (decide (g = i)) as [-> | Hne].
  - rewrite list_lookup_alter_eq, H. symmetry. simpl. eapply lookup_insert_live, H.
  - rewrite list_lookup_alter_ne, list_lookup_insert_ne by exact Hne. reflexivity.
Qed.

Lemma redraw_with_visible b nd : redraw (Konva.with_visible b nd) = redraw nd.
Proof. reflexivity. Qed.

Lemma hide_effects_no_show gm gg ndm ndg :
  forallb (fun e => negb (Effect_shows e)) (hide_effects gm gg ndm ndg) = true.
Proof.
  unfold hide_effects, redraw.
  destruct (Konva.layer ndm), (Konva.layer ndg); reflexivity.
Qed.

(** Case analysis on the length of a prefix of an explicit list. *)
Ltac each_prefix k tac :=
  first [ tac | destruct k as [| k]; [ tac | each_prefix k tac ] ].

Lemma switch_prefix_exclusive (gm gg : loc) ndm ndg screen vm vg k :
  gm <> gg ->
  0 < k ->
  visible_after gm vm (take k (hide_effects gm gg ndm ndg ++ entry_effects gm gg ndm ndg screen))
  && visible_after gg vg (take k (hide_effects gm gg ndm ndg ++ entry_effects gm gg ndm ndg screen))
  = false.
Proof.
  intros Hne Hk. unfold hide_effects, entry_effects, redraw.
  destruct screen, (Konva.layer ndm), (Konva.layer ndg);
    each_prefix k
      ltac:(solve [lia | simpl; repeat case_decide; try congruence;
                         destruct vm, vg; reflexivity]).
Qed.

(** C2.  In one call of [switchToScreen] on an app whose views are two
    distinct live groups, the effects are those of the two [hide] calls
    followed by those of the entry action: both groups are written
    invisible in the first part, which makes nothing visible, and the
    stores the call passes through, one per effect, never have both
    groups visible. *)
Theorem App_switchToScreen_hide_all_before_show
    (w : World) (a : App GameScreenModel) (screen : Screen) :
  App_wf w a ->
  let gm := getGroup (getView (App_menuController a)) in
  let gg := getGroup (getView (App_gameController a)) in
  exists a' w' ndm ndg,
    run (App_switchToScreen a screen) w = (Ok a', w')
    /\ nodes w !! gm = Some ndm
    /\ nodes w !! gg = Some ndg
    /\ trace w' = trace w ++ hide_effects gm gg ndm ndg ++ entry_effects gm gg ndm ndg screen
    /\ In (EVisible gm false) (hide_effects gm gg ndm ndg)
    /\ In (EVisible gg false) (hide_effects gm gg ndm ndg)
    /\ forallb (fun e => negb (Effect_shows e)) (hide_effects gm gg ndm ndg) = true
    /\ existsb Effect_shows (entry_effects gm gg ndm ndg screen) = true
    /\ nodes w' = replay (hide_effects gm gg ndm ndg ++ entry_effects gm gg ndm ndg screen) (nodes w)
    /\ forall k : nat,
         0 < k <= length (hide_effects gm gg ndm ndg ++ entry_effects gm gg ndm ndg screen) ->
         node_visible
           (replay (take k (hide_effects gm gg ndm ndg ++ entry_effects gm gg ndm ndg screen))
                   (nodes w)) gm
         && node_visible
              (replay (take k (hide_effects gm gg ndm ndg ++ entry_effects gm gg ndm ndg screen))
                      (nodes w)) gg
         = false.
Proof.
  intros Hwf gm gg. destruct (App_wf_nodes _ _ Hwf) as (ndm & ndg & Hm & Hg).
  destruct Hwf as (Hne & Sm & Sg). subst gm gg. view_groups.
  set (gm := MenuScreenView_group (MenuScreenController_view (App_menuController a))) in *.
  set (gg := GameScreenView_group (GameScreenController_view (App_gameController a))) in *.
  assert (Hmg : nodes w !! gg = Some ndg) by exact Hg.
  assert (Hg' : <[gm := Konva.with_visible false ndm]> (nodes w) !! gg = Some ndg)
    by (rewrite list_lookup_insert_ne by exact Hne; exact Hg).
  assert (Hreplay_hide : forall es,
            replay (hide_effects gm gg ndm ndg ++ es) (nodes w) =
            replay es (nodes (World_hidden gm gg ndm ndg w))).
  { intros es. unfold hide_effects. rewrite <- !app_assoc, <- !app_comm_cons.
    rewrite (replay_visible gm false ndm _ (nodes w) Hm).
    rewrite (replay_visible gg false ndg _ _ Hg'). reflexivity. }
  destruct (App_switchToScreen_live w a ndm ndg Hne Hm Hg screen) as [a' Hrun].
  exists a', (World_switched gm gg ndm ndg screen w), ndm, ndg.
  split; [exact Hrun | split; [exact Hm | split; [exact Hg |]]].
  split; [| split; [| split; [| split; [| split; [| split]]]]].
    + destruct screen; unfold hide_effects, entry_effects; simpl;
        rewrite <- !app_assoc; simpl; rewrite <- ?app_assoc; reflexivity.
    + left. reflexivity.
    + unfold hide_effects. apply in_or_app. right. left. reflexivity.
    + apply hide_effects_no_show.
    + destruct screen; reflexivity.
    + rewrite Hreplay_hide.
      pose proof (hidden_lookup_menu w a ndm ndg Hne Hm) as Lm.
      pose proof (hidden_lookup_game w a ndm ndg Hne Hg) as Lg.
      fold gm in Lm, Lg. fold gg in Lm, Lg.
      destruct screen; unfold entry_effects.
      * rewrite <- (app_nil_r (redraw ndm)).
        rewrite <- (redraw_with_visible false ndm).
        rewrite (replay_visible gm true _ [] _ Lm). reflexivity.
      * change (EReset :: ?l) with ([EReset] ++ l). rewrite replay_app.
        rewrite <- (app_nil_r (redraw ndg)).
        rewrite <- (redraw_with_visible false ndg).
        change (replay [EReset] ?x) with x.
        rewrite (replay_visible gg true _ [] _ Lg). reflexivity.
    + intros k [Hk _].
      rewrite !node_visible_replay by assumption.
      apply switch_prefix_exclusive; assumption.
Qed.

(** C3.  On an app whose views are two distinct live groups,
    [switchToScreen({type: "game"})] is the two [hide] calls followed by
    the game controller's [startGame]; [startGame] puts the reset model
    in place and issues the reset before the write that makes the game
    group visible; afterwards the game view reports visible and the menu
    view does not. *)
Theorem App_switchToScreen_game_resets_then_shows (w : World) (a : App GameScreenModel) :
  App_wf w a ->
  exists wh g w',
    run (ScreenController_hide (App_menuController a);;
         ScreenController_hide (App_gameController a)) w = (Ok tt, wh)
    /\ run (GameScreenController_startGame (App_gameController a)) wh = (Ok g, w')
    /\ run (App_switchToScreen a ScreenGame) w = (Ok (App_with_gameController g a), w')
    /\ GameScreenController_model g =
       GameScreenModel_reset (GameScreenController_model (App_gameController a))
    /\ GameScreenController_view g = GameScreenController_view (App_gameController a)
    /\ (exists draws,
          trace w' = trace wh ++ EReset :: EVisible (getGroup (getView g)) true :: draws
          /\ forallb Effect_is_draw draws = true)
    /\ reports_visible w' (getView g) = true
    /\ reports_visible w' (getView (App_menuController a)) = false.
Proof.
  intros Hwf. destruct (App_wf_nodes _ _ Hwf) as (ndm & ndg & Hm & Hg).
  destruct Hwf as (Hne & _ & _). view_groups.
  set (gm := MenuScreenView_group (MenuScreenController_view (App_menuController a))) in *.
  set (gg := GameScreenView_group (GameScreenController_view (App_gameController a))) in *.
  assert (Hne' : gg <> gm) by (intros E; apply Hne; symmetry; exact E).
  pose proof (hidden_lookup_menu w a ndm ndg Hne Hm) as Lm.
  pose proof (hidden_lookup_game w a ndm ndg Hne Hg) as Lg.
  fold gm in Lm, Lg. fold gg in Lm, Lg.
  exists (World_hidden gm gg ndm ndg w).
  eexists _, _.
  split; [| split; [| split; [| split; [| split; [| split; [| split]]]]]].
  - erewrite run_bind_ok; cycle 1.
    { apply MenuScreenView_hide_live, Hm. }
    apply GameScreenView_hide_live. unfold World_after_visible, nodes.
    rewrite list_lookup_insert_ne by exact Hne. exact Hg.
  - apply (GameScreenController_startGame_live a _ _ Lg).
  - apply (App_switchToScreen_game_live w a ndm ndg Hne Hm Hg).
  - reflexivity.
  - reflexivity.
  - exists (redraw ndg). split.
    + unfold World_after_visible, World_emit, trace. rewrite <- app_assoc. reflexivity.
    + unfold redraw. destruct (Konva.layer ndg); reflexivity.
  - unfold reports_visible. view_groups. fold gg.
    rewrite (after_visible_lookup gg true _ _ (World_emit EReset _) Lg). reflexivity.
  - unfold reports_visible. view_groups. fold gm gg.
    rewrite (after_visible_lookup_ne gg gm _ _ _ Hne').
    change (nodes (World_emit EReset ?x)) with (nodes x). rewrite Lm. reflexivity.
Qed.

(** ** Views *)

Lemma redraw_is_draw nd : forallb Effect_is_draw (redraw nd) = true.
Proof. unfold redraw. destruct (Konva.layer nd); reflexivity. Qed.

(** Writing to a live group the value it already holds leaves the nodes
    as they are. *)
Lemma after_visible_again (g : loc) b nd nd0 w :
  nodes w !! g = Some nd0 ->
  nodes (World_after_visible g b (Konva.with_visible b nd)
                             (World_after_visible g b nd w)) =
  nodes (World_after_visible g b nd w).
Proof.
  intros H. unfold World_after_visible, nodes. apply list_insert_insert_eq.
Qed.

(** C8.  For a [MenuScreenView] whose group is live: a second [show]
    right after a [show] returns, leaves every node, the counter and the
    entities as the first left them, and adds to the effects only the
    repeated write and redraw requests; the same for [hide]; and [show],
    [hide], [show] in a row leaves the view reporting visible. *)
Theorem MenuScreenView_show_hide_idempotent (v : MenuScreenView) (w : World) :
  is_Some (nodes w !! getGroup v) ->
  (exists w1 w2 draws,
      run (MenuScreenView_show v) w = (Ok tt, w1)
      /\ run (MenuScreenView_show v) w1 = (Ok tt, w2)
      /\ nodes w2 = nodes w1 /\ ID w2 = ID w1 /\ objects w2 = objects w1
      /\ trace w2 = trace w1 ++ EVisible (getGroup v) true :: draws
      /\ forallb Effect_is_draw draws = true
      /\ reports_visible w1 v = true /\ reports_visible w2 v = true)
  /\ (exists w1 w2 draws,
      run (MenuScreenView_hide v) w = (Ok tt, w1)
      /\ run (MenuScreenView_hide v) w1 = (Ok tt, w2)
      /\ nodes w2 = nodes w1 /\ ID w2 = ID w1 /\ objects w2 = objects w1
      /\ trace w2 = trace w1 ++ EVisible (getGroup v) false :: draws
      /\ forallb Effect_is_draw draws = true
      /\ reports_visible w1 v = false /\ reports_visible w2 v = false)
  /\ (exists w3,
      run (MenuScreenView_show v;; MenuScreenView_hide v;; MenuScreenView_show v) w = (Ok tt, w3)
      /\ reports_visible w3 v = true).
Proof.
  intros [nd H]. cbn [getGroup MenuScreenView_View] in *.
  set (g := MenuScreenView_group v) in *.
  assert (Hset : forall b nd0 w0, nodes w0 !! g = Some nd0 ->
            nodes (World_after_visible g b nd0 w0) !! g = Some (Konva.with_visible b nd0)).
  { intros b nd0 w0 H0. apply (after_visible_lookup g b nd0 nd0 w0 H0). }
  split; [| split].
  - exists (World_after_visible g true nd w),
           (World_after_visible g true (Konva.with_visible true nd)
                                (World_after_visible g true nd w)),
           (redraw nd).
    split; [apply MenuScreenView_show_live, H |].
    split; [apply MenuScreenView_show_live, Hset, H |].
    split; [apply (after_visible_again g true nd nd w H) |].
    split; [reflexivity |]. split; [reflexivity |]. split; [reflexivity |].
    split; [apply redraw_is_draw |].
    unfold reports_visible. cbn [getGroup MenuScreenView_View]. fold g.
    rewrite (Hset true _ _ (Hset true _ _ H)), (Hset true _ _ H). split; reflexivity.
  - exists (World_after_visible g false nd w),
           (World_after_visible g false (Konva.with_visible false nd)
                                (World_after_visible g false nd w)),
           (redraw nd).
    split; [apply MenuScreenView_hide_live, H |].
    split; [apply MenuScreenView_hide_live, Hset, H |].
    split; [apply (after_visible_again g false nd nd w H) |].
    split; [reflexivity |]. split; [reflexivity |]. split; [reflexivity |].
    split; [apply redraw_is_draw |].
    unfold reports_visible. cbn [getGroup MenuScreenView_View]. fold g.
    rewrite (Hset false _ _ (Hset false _ _ H)), (Hset false _ _ H). split; reflexivity.
  - eexists. split.
    + erewrite run_bind_ok; cycle 1.
      { apply MenuScreenView_show_live, H. }
      erewrite run_bind_ok; cycle 1.
      { apply MenuScreenView_hide_live, Hset, H. }
      apply MenuScreenView_show_live, Hset, Hset, H.
    + unfold reports_visible. cbn [getGroup MenuScreenView_View]. fold g.
      rewrite (Hset true _ _ (Hset false _ _ (Hset true _ _ H))). reflexivity.
Qed.

(** ** Positioned entities *)

Lemma Object_alloc_run o w :
  run (Object_alloc o) w = (Ok (length (objects w)), World_with_objects (objects w ++ [o]) w).
Proof. reflexivity. Qed.

Lemma lookup_alloc {A} (l : list A) (a : A) : (l ++ [a]) !! length l = Some a.
Proof. apply list_lookup_middle. reflexivity. Qed.

Lemma Object_constructor_live (g : loc) nd rank x y w :
  nodes w !! g = Some nd ->
  run (Object_constructor (Some g) rank x y) w =
  (Ok (length (objects w)),
   World_with_nodes
     (<[g := Konva_centred nd]> (nodes w))
     (World_constructing
        (mkObject (ID w) (default 1%Q rank) 0 1
                  (default (STAGE_WIDTH / 2)%Q x) (default (STAGE_HEIGHT / 2)%Q y) (Some g)) w)).
Proof.
  intros H. unfold Object_constructor.
  set (o := mkObject _ _ _ _ _ _ _).
  erewrite run_bind_ok by reflexivity.
  erewrite run_bind_ok by reflexivity.
  erewrite run_bind_ok by apply Object_alloc_run.
  assert (Himg : forall w0, objects w0 = objects w ++ [o] ->
                     run (Object_this_image (length (objects w))) w0 = (Ok g, w0)).
  { intros w0 E. apply (Object_this_image_live _ o g); [| reflexivity].
    rewrite E. apply lookup_alloc. }
  do 2 (erewrite run_bind_ok by (apply Himg; reflexivity)).
  erewrite run_bind_ok; cycle 1.
  { apply Konva_read_live. exact H. }
  erewrite run_bind_ok; cycle 1.
  { apply Konva_write_live. exact H. }
  do 2 (erewrite run_bind_ok by (apply Himg; reflexivity)).
  erewrite run_bind_ok; cycle 1.
  { apply Konva_read_live. simpl. eapply lookup_insert_live, H. }
  erewrite run_bind_ok; cycle 1.
  { apply Konva_write_live. simpl. eapply lookup_insert_live, H. }
  unfold run, mret, M_ret. f_equal.
  unfold World_with_nodes, World_constructing, Konva_centred. simpl.
  rewrite list_insert_insert_eq. reflexivity.
Qed.

Lemma Object_constructor_absent rank x y w :
  run (Object_constructor None rank x y) w =
  (Throw TypeError,
   World_constructing
     (mkObject (ID w) (default 1%Q rank) 0 1
               (default (STAGE_WIDTH / 2)%Q x) (default (STAGE_HEIGHT / 2)%Q y) None) w).
Proof.
  unfold Object_constructor.
  set (o := mkObject _ _ _ _ _ _ _).
  erewrite run_bind_ok by reflexivity.
  erewrite run_bind_ok by reflexivity.
  erewrite run_bind_ok by apply Object_alloc_run.
  apply run_bind_throw.
  apply (Object_this_image_absent _ o); [apply lookup_alloc | reflexivity].
Qed.

Section Setters.

Context (w : World) (this : loc) (o : Object).
Hypothesis Ho : objects w !! this = Some o.

Lemma after_field_lookup o' ns :
  objects (World_with_nodes ns (World_after_field this o' w)) !! this = Some o'.
Proof. simpl. eapply lookup_insert_live, Ho. Qed.

Lemma after_field_image o' g ns :
  _image o' = Some g ->
  run (Object_this_image this) (World_with_nodes ns (World_after_field this o' w)) =
  (Ok g, World_with_nodes ns (World_after_field this o' w)).
Proof. intros E. apply (Object_this_image_live _ o' g _ (after_field_lookup o' ns) E). Qed.

Lemma after_field_no_image o' ns :
  _image o' = None ->
  run (Object_this_image this) (World_with_nodes ns (World_after_field this o' w)) =
  (Throw TypeError, World_with_nodes ns (World_after_field this o' w)).
Proof. intros E. apply (Object_this_image_absent _ o' _ (after_field_lookup o' ns) E). Qed.

Lemma Object_set_rank_live value :
  run (Object_set_rank this value) w = (Ok tt, World_after_field this (Object_with_rank value o) w).
Proof. apply Object_write_live, Ho. Qed.

Lemma Object_set_image_live value :
  run (Object_set_image this value) w = (Ok tt, World_after_field this (Object_with_image value o) w).
Proof. apply Object_write_live, Ho. Qed.

Ltac store_field :=
  erewrite run_bind_ok by (apply Object_write_live, Ho);
  change (World_with_objects (<[this := ?o']> (objects w)) w)
    with (World_with_nodes (nodes w) (World_after_field this o' w)).

Ltac this_image E :=
  first [ erewrite run_bind_ok by (apply after_field_image; exact E)
        | apply run_bind_throw; apply after_field_no_image; exact E ].

Section WithHandle.

Context (g : loc) (nd : Konva.Node).
Hypothesis Hi : _image o = Some g.
Hypothesis Hg : nodes w !! g = Some nd.

Lemma Object_set_rotation_live value :
  run (Object_set_rotation this value) w =
  (Ok tt, World_with_nodes (<[g := Konva.with_rotation value nd]> (nodes w))
                           (World_after_field this (Object_with_rotation value o) w)).
Proof.
  unfold Object_set_rotation. store_field. this_image Hi.
  erewrite run_bind_ok by (apply Object_read_live, after_field_lookup).
  unfold Konva_rotation, Konva_x, Konva_y.
  erewrite Konva_write_live by exact Hg. reflexivity.
Qed.

Lemma Object_set_scale_live value :
  run (Object_set_scale this value) w =
  (Ok tt, World_with_nodes
            (<[g := Konva.with_scaleY value (Konva.with_scaleX value nd)]> (nodes w))
            (World_after_field this (Object_with_scale value o) w)).
Proof.
  unfold Object_set_scale. store_field. this_image Hi.
  erewrite run_bind_ok by (apply Konva_write_live; exact Hg).
  change (World_with_nodes ?ns (World_with_nodes _ ?w0)) with (World_with_nodes ns w0).
  this_image Hi.
  unfold Konva_scaleY.
  erewrite Konva_write_live by (simpl; eapply lookup_insert_live, Hg).
  unfold World_with_nodes; simpl. rewrite list_insert_insert_eq. reflexivity.
Qed.

Lemma Object_set_x_live value :
  run (Object_set_x this value) w =
  (Ok tt, World_with_nodes (<[g := Konva.with_x value nd]> (nodes w))
                           (World_after_field this (Object_with_x value o) w)).
Proof.
  unfold Object_set_x. store_field. this_image Hi.
  unfold Konva_rotation, Konva_x, Konva_y.
  erewrite Konva_write_live by exact Hg. reflexivity.
Qed.

Lemma Object_set_y_live value :
  run (Object_set_y this value) w =
  (Ok tt, World_with_nodes (<[g := Konva.with_y value nd]> (nodes w))
                           (World_after_field this (Object_with_y value o) w)).
Proof.
  unfold Object_set_y. store_field. this_image Hi.
  unfold Konva_rotation, Konva_x, Konva_y.
  erewrite Konva_write_live by exact Hg. reflexivity.
Qed.

End WithHandle.

Section WithoutHandle.

Hypothesis Hi : _image o = None.

Lemma Object_set_rotation_absent value :
  run (Object_set_rotation this value) w =
  (Throw TypeError, World_after_field this (Object_with_rotation value o) w).
Proof. unfold Object_set_rotation. store_field. this_image Hi. Qed.

Lemma Object_set_scale_absent value :
  run (Object_set_scale this value) w =
  (Throw TypeError, World_after_field this (Object_with_scale value o) w).
Proof. unfold Object_set_scale. store_field. this_image Hi. Qed.

Lemma Object_set_x_absent value :
  run (Object_set_x this value) w =
  (Throw TypeError, World_after_field this (Object_with_x value o) w).
Proof. unfold Object_set_x. store_field. this_image Hi. Qed.

Lemma Object_set_y_absent value :
  run (Object_set_y this value) w =
  (Throw TypeError, World_after_field this (Object_with_y value o) w).
Proof. unfold Object_set_y. store_field. this_image Hi. Qed.

End WithoutHandle.

End Setters.

(** C6.  For an entity that holds a live handle and any [value]: the
    [rotation], [x] and [y] setters return and the handle's getter then
    reports exactly [value]; the [scale] setter returns and both the
    handle's [scaleX] and [scaleY] then report exactly [value]; the
    entity's own getter reports [value] as well. *)
Theorem Object_setters_reach_handle
    (w : World) (this : loc) (o : Object) (g : loc) (nd : Konva.Node) (value : Q) :
  objects w !! this = Some o ->
  _image o = Some g ->
  nodes w !! g = Some nd ->
  (exists w', run (Object_set_rotation this value) w = (Ok tt, w')
              /\ run (Konva_read Konva.rotation g) w' = (Ok value, w')
              /\ run (Object_get_rotation this) w' = (Ok value, w'))
  /\ (exists w', run (Object_set_scale this value) w = (Ok tt, w')
                 /\ run (Konva_read Konva.scaleX g) w' = (Ok value, w')
                 /\ run (Konva_read Konva.scaleY g) w' = (Ok value, w')
                 /\ run (Object_get_scale this) w' = (Ok value, w'))
  /\ (exists w', run (Object_set_x this value) w = (Ok tt, w')
                 /\ run (Konva_read Konva.x g) w' = (Ok value, w')
                 /\ run (Object_get_x this) w' = (Ok value, w'))
  /\ (exists w', run (Object_set_y this value) w = (Ok tt, w')
                 /\ run (Konva_read Konva.y g) w' = (Ok value, w')
                 /\ run (Object_get_y this) w' = (Ok value, w')).
Proof.
  intros Ho Hi Hg.
  assert (Hn : forall nd' o', nodes (World_with_nodes (<[g := nd']> (nodes w))
                                       (World_after_field this o' w)) !! g = Some nd').
  { intros nd' o'. simpl. eapply lookup_insert_live, Hg. }
  assert (Hf : forall ns o', objects (World_with_nodes ns (World_after_field this o' w)) !! this
                             = Some o').
  { intros ns o'. apply (after_field_lookup w this o Ho). }
  split; [| split; [| split]]; eexists.
  - split; [apply (Object_set_rotation_live w this o Ho g nd Hi Hg) |].
    split; [erewrite Konva_read_live by apply Hn; reflexivity |].
    unfold Object_get_rotation, Object_get_scale, Object_get_x, Object_get_y;
    erewrite Object_read_live by apply Hf; reflexivity.
  - split; [apply (Object_set_scale_live w this o Ho g nd Hi Hg) |].
    split; [erewrite Konva_read_live by apply Hn; reflexivity |].
    split; [erewrite Konva_read_live by apply Hn; reflexivity |].
    unfold Object_get_rotation, Object_get_scale, Object_get_x, Object_get_y;
    erewrite Object_read_live by apply Hf; reflexivity.
  - split; [apply (Object_set_x_live w this o Ho g nd Hi Hg) |].
    split; [erewrite Konva_read_live by apply Hn; reflexivity |].
    unfold Object_get_rotation, Object_get_scale, Object_get_x, Object_get_y;
    erewrite Object_read_live by apply Hf; reflexivity.
  - split; [apply (Object_set_y_live w this o Ho g nd Hi Hg) |].
    split; [erewrite Konva_read_live by apply Hn; reflexivity |].
    unfold Object_get_rotation, Object_get_scale, Object_get_x, Object_get_y;
    erewrite Object_read_live by apply Hf; reflexivity.
Qed.

(** C9.  The [image] setter on an entity returns for any [value], a
    node reference or [undefined]; afterwards the entity holds [value]
    as its handle and its identity, rank, rotation, scale, x and y are
    what they were; no node of the store, the new handle included, has
    changed in any attribute, so its offsets were not computed again;
    the counter, the other entities and the effects are as before. *)
Theorem Object_set_image_swaps_only_handle
    (w : World) (this : loc) (o : Object) (value : option loc) :
  objects w !! this = Some o ->
  exists w' o',
    run (Object_set_image this value) w = (Ok tt, w')
    /\ objects w' !! this = Some o'
    /\ _image o' = value
    /\ _Id o' = _Id o /\ _rank o' = _rank o /\ _rotation o' = _rotation o
    /\ _scale o' = _scale o /\ _x o' = _x o /\ _y o' = _y o
    /\ nodes w' = nodes w
    /\ (forall g nd, value = Some g -> nodes w !! g = Some nd ->
          Konva.offsetX <$> nodes w' !! g = Some (Konva.offsetX nd)
          /\ Konva.offsetY <$> nodes w' !! g = Some (Konva.offsetY nd))
    /\ ID w' = ID w
    /\ trace w' = trace w
    /\ (forall other, other <> this -> objects w' !! other = objects w !! other).
Proof.
  intros Ho.
  exists (World_after_field this (Object_with_image value o) w), (Object_with_image value o).
  split; [apply (Object_set_image_live w this o Ho) |].
  split; [simpl; eapply lookup_insert_live, Ho |].
  do 8 (split; [reflexivity |]).
  split; [| split; [reflexivity | split; [reflexivity |]]].
  - intros g nd _ Hg. simpl. rewrite Hg. split; reflexivity.
  - intros other Hne. simpl. apply list_lookup_insert_ne.
    intros E. apply Hne. symmetry. exact E.
Qed.

(** C10.  Constructing an entity on a live handle returns; the stored
    position is the one asked for (the stage centre by default), while
    the handle keeps the [x] and [y] it had: of its attributes only
    [offsetX] and [offsetY] are written, and no other node changes.  So
    the handle sits at the stored position after construction exactly
    when it already did before. *)
Theorem Object_constructor_leaves_handle_position
    (w : World) (g : loc) (nd : Konva.Node) (rank x y : option Q) :
  nodes w !! g = Some nd ->
  exists this w' o nd',
    run (Object_constructor (Some g) rank x y) w = (Ok this, w')
    /\ objects w' !! this = Some o
    /\ nodes w' !! g = Some nd'
    /\ _x o = default (STAGE_WIDTH / 2)%Q x
    /\ _y o = default (STAGE_HEIGHT / 2)%Q y
    /\ Konva.x nd' = Konva.x nd
    /\ Konva.y nd' = Konva.y nd
    /\ nd' = Konva.with_offsetY (Konva.height nd / 2)%Q
                                (Konva.with_offsetX (Konva.width nd / 2)%Q nd)
    /\ (forall n, n <> g -> nodes w' !! n = nodes w !! n)
    /\ ((Konva.x nd' == _x o)%Q <-> (Konva.x nd == default (STAGE_WIDTH / 2)%Q x)%Q)
    /\ ((Konva.y nd' == _y o)%Q <-> (Konva.y nd == default (STAGE_HEIGHT / 2)%Q y)%Q).
Proof.
  intros Hg. eexists _, _, _, _.
  split; [apply (Object_constructor_live g nd rank x y w Hg) |].
  split; [apply lookup_alloc |].
  split; [simpl; eapply lookup_insert_live, Hg |].
  do 5 (split; [reflexivity |]).
  split; [| split; reflexivity].
  intros n Hne. simpl. apply list_lookup_insert_ne.
  intros E. apply Hne. symmetry. exact E.
Qed.

(** C5 (as amended).  Construction throws exactly when the handle is
    absent, and then it is a [TypeError] raised by the constructor
    itself.  On an entity, the [rank] and [image] setters return for any
    value; the [rotation], [scale], [x] and [y] setters return for any
    value while the entity holds a handle, and throw a [TypeError] once
    it holds none. *)
Theorem Object_failure_conditions
    (w : World) (image : option loc) (rank x y : option Q)
    (this : loc) (o : Object) (value : Q) (handle : option loc) :
  (forall g, image = Some g -> is_Some (nodes w !! g)) ->
  objects w !! this = Some o ->
  (forall g, _image o = Some g -> is_Some (nodes w !! g)) ->
  (succeeds (run (Object_constructor image rank x y) w) = false <-> image = None)
  /\ (image = None -> fst (run (Object_constructor image rank x y) w) = Throw TypeError)
  /\ succeeds (run (Object_set_rank this value) w) = true
  /\ succeeds (run (Object_set_image this handle) w) = true
  /\ (is_Some (_image o) ->
        succeeds (run (Object_set_rotation this value) w) = true
        /\ succeeds (run (Object_set_scale this value) w) = true
        /\ succeeds (run (Object_set_x this value) w) = true
        /\ succeeds (run (Object_set_y this value) w) = true)
  /\ (_image o = None ->
        fst (run (Object_set_rotation this value) w) = Throw TypeError
        /\ fst (run (Object_set_scale this value) w) = Throw TypeError
        /\ fst (run (Object_set_x this value) w) = Throw TypeError
        /\ fst (run (Object_set_y this value) w) = Throw TypeError).
Proof.
  intros Himage Ho Hhandle.
  split; [| split; [| split; [| split; [| split]]]].
  - destruct image as [g |].
    + destruct (Himage g eq_refl) as [nd Hg].
      rewrite (Object_constructor_live g nd rank x y w Hg). simpl.
      split; intros; discriminate.
    + rewrite Object_constructor_absent. simpl. split; reflexivity.
  - intros ->. rewrite Object_constructor_absent. reflexivity.
  - rewrite (Object_set_rank_live w this o Ho). reflexivity.
  - rewrite (Object_set_image_live w this o Ho). reflexivity.
  - intros [g Hi]. destruct (Hhandle g Hi) as [nd Hg].
    rewrite (Object_set_rotation_live w this o Ho g nd Hi Hg).
    rewrite (Object_set_scale_live w this o Ho g nd Hi Hg).
    rewrite (Object_set_x_live w this o Ho g nd Hi Hg).
    rewrite (Object_set_y_live w this o Ho g nd Hi Hg).
    repeat split.
  - intros Hi.
    rewrite (Object_set_rotation_absent w this o Ho Hi).
    rewrite (Object_set_scale_absent w this o Ho Hi).
    rewrite (Object_set_x_absent w this o Ho Hi).
    rewrite (Object_set_y_absent w this o Ho Hi).
    repeat split.
Qed.

(** ** Identities *)

Create HintDb ids discriminated.

Lemma keeps_ids_ret {A} (a : A) : keeps_ids (mret a).
Proof. intros w. split; reflexivity. Qed.

Lemma keeps_ids_throw {A} (e : JsError) : keeps_ids (@throw A e).
Proof. intros w. split; reflexivity. Qed.

Lemma keeps_ids_bind {A B} (c : M A) (k : A -> M B) :
  keeps_ids c -> (forall a, keeps_ids (k a)) -> keeps_ids (c ≫= k).
Proof.
  intros Hc Hk w. rewrite run_bind. specialize (Hc w).
  destruct (run c w) as [[a | e] w1]; simpl in Hc.
  - destruct (Hk a w1) as [H1 H2]. rewrite H1, H2. exact Hc.
  - exact Hc.
Qed.

Lemma keeps_ids_Konva_read {A} (f : Konva.Node -> A) n : keeps_ids (Konva_read f n).
Proof.
  intros w. unfold Konva_read, run, mbind, M_bind; simpl.
  destruct (nodes w !! n); split; reflexivity.
Qed.

Lemma keeps_ids_Konva_write f n : keeps_ids (Konva_write f n).
Proof.
  intros w. unfold Konva_write, run, mbind, M_bind; simpl.
  destruct (nodes w !! n); split; reflexivity.
Qed.

Lemma keeps_ids_Konva_new config : keeps_ids (Konva_new config).
Proof. intros w. split; reflexivity. Qed.

Lemma keeps_ids_Object_read {A} (f : Object -> A) this : keeps_ids (Object_read f this).
Proof.
  intros w. unfold Object_read, run, mbind, M_bind; simpl.
  destruct (objects w !! this); split; reflexivity.
Qed.

Lemma keeps_ids_Object_write f this :
  (forall o, _Id (f o) = _Id o) -> keeps_ids (Object_write f this).
Proof.
  intros Hf w. unfold Object_write, run, mbind, M_bind; simpl.
  destruct (objects w !! this) as [o |] eqn:Ho; split; try reflexivity.
  unfold ids_of. simpl. rewrite list_fmap_insert. apply list_insert_id.
  rewrite list_lookup_fmap, Ho. simpl. rewrite Hf. reflexivity.
Qed.

Lemma keeps_ids_deref o : keeps_ids (deref o).
Proof. intros w. destruct o; split; reflexivity. Qed.

#[local] Hint Resolve keeps_ids_ret keeps_ids_throw keeps_ids_Konva_read
  keeps_ids_Konva_write keeps_ids_Konva_new keeps_ids_Object_read keeps_ids_deref : ids.
#[local] Hint Extern 1 (keeps_ids (_ ≫= _)) => apply keeps_ids_bind; [| intros ?] : ids.
#[local] Hint Extern 1 (keeps_ids (Object_write _ _)) =>
  apply keeps_ids_Object_write; intros []; reflexivity : ids.

Ltac keeps_ids_unfold :=
  unfold Object_get_Id, Object_get_rank, Object_set_rank,
    Object_get_rotation, Object_set_rotation, Object_get_scale, Object_set_scale,
    Object_get_x, Object_set_x, Object_get_y, Object_set_y,
    Object_get_image, Object_set_image,
    Konva_rotation, Konva_scaleX, Konva_scaleY, Konva_x, Konva_y,
    Konva_width, Konva_height, Konva_offsetX, Konva_offsetY, Object_this_image.

(** Every call but the constructor keeps the identities. *)
Lemma keeps_ids_perform c :
  (forall image rank x y, c <> CallNew image rank x y) -> keeps_ids (Object_perform c).
Proof.
  intros Hc. destruct c; cbn [Object_perform]; try (keeps_ids_unfold; auto 20 with ids).
  exfalso. eapply Hc. reflexivity.
Qed.

(** The constructor takes the counter's value as the new identity and
    increments the counter, also when it then throws. *)
Lemma Object_constructor_ids image rank x y w :
  ids_of (snd (run (Object_constructor image rank x y) w)) = ids_of w ++ [ID w]
  /\ ID (snd (run (Object_constructor image rank x y) w)) = (ID w + 1)%Z.
Proof.
  unfold Object_constructor.
  erewrite run_bind_ok by reflexivity.
  erewrite run_bind_ok by reflexivity.
  erewrite run_bind_ok by apply Object_alloc_run.
  match goal with |- context [run ?c ?w0] =>
    assert (K : keeps_ids c) by (keeps_ids_unfold; auto 20 with ids);
    destruct (K w0) as [K1 K2]; rewrite K1, K2
  end.
  split; [| reflexivity].
  unfold ids_of. simpl. rewrite fmap_app. reflexivity.
Qed.

Lemma run_then_ret {A} (c : M A) w : snd (run (c;; mret tt) w) = snd (run c w).
Proof. rewrite run_bind. destruct (run c w) as [[a | e] w1]; reflexivity. Qed.

Lemma client_step_ids w c :
  (ids_of (client_step w c) = ids_of w ++ [ID w] /\ ID (client_step w c) = (ID w + 1)%Z)
  \/ (ids_of (client_step w c) = ids_of w /\ ID (client_step w c) = ID w).
Proof.
  unfold client_step.
  destruct c as [config | image rank x y | | | | | | | | | | | | |];
    try (right; apply keeps_ids_perform; intros; discriminate).
  left. cbn [Object_perform]. rewrite run_then_ret. apply Object_constructor_ids.
Qed.

Lemma ids_inv_initial : ids_inv World_initial.
Proof. split; [apply NoDup_nil_2 | split; [reflexivity | apply Forall_nil_2]]. Qed.

Lemma ids_inv_step w c : ids_inv w -> ids_inv (client_step w c).
Proof.
  intros (Hnd & H0 & Hlt). destruct (client_step_ids w c) as [[E1 E2] | [E1 E2]];
    unfold ids_inv; rewrite E1, E2.
  - split; [| split].
    + apply NoDup_app. split; [exact Hnd | split; [| apply NoDup_singleton]].
      intros i Hi Hin. apply list_elem_of_singleton in Hin. subst i.
      rewrite Forall_forall in Hlt. specialize (Hlt _ Hi). lia.
    + lia.
    + apply Forall_app. split.
      * eapply Forall_impl; [exact Hlt |]. simpl. intros. lia.
      * apply Forall_singleton. lia.
  - split; [| split]; assumption.
Qed.

Lemma ids_inv_run calls : forall w, ids_inv w -> ids_inv (client_run calls w).
Proof.
  induction calls as [| c calls IH]; intros w Hw; [exact Hw |].
  apply IH, ids_inv_step, Hw.
Qed.

Lemma ids_of_lookup w (this : loc) : ids_of w !! this = _Id <$> objects w !! this.
Proof. unfold ids_of. apply list_lookup_fmap. Qed.

Lemma client_step_keeps_Id w c (this : loc) o :
  objects w !! this = Some o ->
  _Id <$> objects (client_step w c) !! this = Some (_Id o).
Proof.
  intros Ho. rewrite <- ids_of_lookup.
  assert (H : ids_of w !! this = Some (_Id o)) by (rewrite ids_of_lookup, Ho; reflexivity).
  destruct (client_step_ids w c) as [[E1 _] | [E1 _]]; rewrite E1.
  - apply lookup_app_l_Some, H.
  - exact H.
Qed.

Lemma Object_constructor_stale (g : loc) rank x y w :
  nodes w !! g = None ->
  fst (run (Object_constructor (Some g) rank x y) w) = Throw InvalidReference.
Proof.
  intros H. unfold Object_constructor.
  erewrite run_bind_ok by reflexivity.
  erewrite run_bind_ok by reflexivity.
  match goal with |- context [Object_alloc ?o0] => set (o := o0) end.
  erewrite run_bind_ok by apply Object_alloc_run.
  assert (Himg : forall w0, objects w0 = objects w ++ [o] ->
                     run (Object_this_image (length (objects w))) w0 = (Ok g, w0)).
  { intros w0 E. apply (Object_this_image_live _ o g); [| reflexivity].
    rewrite E. apply lookup_alloc. }
  do 2 (erewrite run_bind_ok by (apply Himg; reflexivity)).
  erewrite run_bind_throw; [reflexivity |].
  apply Konva_read_stale. exact H.
Qed.

(** A constructor call that returns hands out a location that was not
    in use, and the entity there carries the counter's old value. *)
Lemma Object_constructor_returns image rank x y w this :
  fst (run (Object_constructor image rank x y) w) = Ok this ->
  objects w !! this = None
  /\ _Id <$> objects (snd (run (Object_constructor image rank x y) w)) !! this = Some (ID w).
Proof.
  destruct image as [g |].
  - destruct (nodes w !! g) as [nd |] eqn:Hg.
    + rewrite (Object_constructor_live g nd rank x y w Hg). simpl.
      intros [= <-]. split.
      * apply lookup_ge_None_2. lia.
      * rewrite lookup_alloc. reflexivity.
    + rewrite (Object_constructor_stale g rank x y w Hg). discriminate.
  - rewrite Object_constructor_absent. discriminate.
Qed.

Lemma handle_live_mono w w' arg :
  length (nodes w') = length (nodes w) -> handle_live w arg -> handle_live w' arg.
Proof.
  intros E. destruct arg as [[[[g |] rank] x] y]; simpl; [| exact id].
  rewrite !lookup_lt_is_Some, E. exact id.
Qed.

(** [n] constructions in a row on live handles return the next [n]
    locations and give them the next [n] values of the counter. *)
Lemma Object_construct_all_spec args : forall w,
  Forall (handle_live w) args ->
  exists w',
    run (Object_construct_all args) w =
      (Ok (seq (length (objects w)) (length args)), w')
    /\ ids_of w' = ids_of w ++ seqZ (ID w) (Z.of_nat (length args)).
Proof.
  induction args as [| [[[image rank] x] y] args IH]; intros w Hlive.
  - exists w. split; [reflexivity |]. simpl. rewrite app_nil_r. reflexivity.
  - apply Forall_cons in Hlive as [Hhead Hrest].
    destruct image as [g |]; [| destruct Hhead]. destruct Hhead as [nd Hg].
    pose proof (Object_constructor_live g nd rank x y w Hg) as Hrun.
    pose proof (Object_constructor_ids (Some g) rank x y w) as [Hids _].
    rewrite Hrun in Hids. cbn [snd] in Hids.
    match type of Hrun with _ = (_, ?w0) => set (w1 := w0) in * end.
    assert (Hlen : length (objects w1) = S (length (objects w))).
    { simpl. rewrite length_app. simpl. lia. }
    assert (Hrest1 : Forall (handle_live w1) args).
    { eapply Forall_impl; [exact Hrest |]. intros arg. apply handle_live_mono.
      simpl. apply length_insert. }
    destruct (IH w1 Hrest1) as (w' & Hrun' & Hids').
    exists w'. split.
    + cbn [Object_construct_all].
      rewrite (run_bind_ok _ _ _ _ _ Hrun), (run_bind_ok _ _ _ _ _ Hrun').
      rewrite Hlen. reflexivity.
    + rewrite Hids', Hids, <- app_assoc. f_equal.
      cbn [length]. rewrite (seqZ_cons (ID w)) by lia.
      replace (Z.pred (Z.of_nat (S (length args)))) with (Z.of_nat (length args)) by lia.
      reflexivity.
Qed.

(** C7.  In every store a client can reach from the loaded page by
    creating handles, constructing entities and reading or writing their
    properties: two different entities have different identities; no
    further call changes the identity of an entity; reading [Id] twice
    gives the same value both times and changes nothing; a construction
    increments the counter, and the entity it returns is a new one whose
    identity is the counter's old value, which no earlier entity has;
    and any number of constructions on live handles return as many
    different entities with as many different identities. *)
Theorem Object_Id_unique_and_stable (calls : list Object_call) :
  let w := client_run calls World_initial in
  (forall i j oi oj,
      objects w !! i = Some oi -> objects w !! j = Some oj -> i <> j -> _Id oi <> _Id oj)
  /\ (forall c this o,
        objects w !! this = Some o ->
        _Id <$> objects (client_step w c) !! this = Some (_Id o))
  /\ (forall this o,
        objects w !! this = Some o ->
        run (a ← Object_get_Id this; b ← Object_get_Id this; mret (a, b)) w
        = (Ok (_Id o, _Id o), w))
  /\ (forall image rank x y,
        ID (snd (run (Object_constructor image rank x y) w)) = (ID w + 1)%Z
        /\ forall this,
             fst (run (Object_constructor image rank x y) w) = Ok this ->
             objects w !! this = None
             /\ _Id <$> objects (snd (run (Object_constructor image rank x y) w)) !! this
                = Some (ID w))
  /\ (forall i o, objects w !! i = Some o -> (0 <= _Id o < ID w)%Z)
  /\ (forall args,
        Forall (handle_live w) args ->
        exists refs w' ids,
          run (Object_construct_all args) w = (Ok refs, w')
          /\ length refs = length args
          /\ NoDup refs
          /\ Forall2 (fun r i => _Id <$> objects w' !! r = Some i) refs ids
          /\ NoDup ids).
Proof.
  intros w.
  destruct (ids_inv_run calls World_initial ids_inv_initial) as (Hnd & H0 & Hlt).
  fold w in Hnd, H0, Hlt.
  split; [| split; [| split; [| split; [| split]]]].
  - intros i j oi oj Hi Hj Hne E. apply Hne.
    apply (NoDup_lookup (ids_of w) i j (_Id oi) Hnd).
    + rewrite ids_of_lookup, Hi. reflexivity.
    + rewrite ids_of_lookup, Hj, E. reflexivity.
  - intros c this o. apply client_step_keeps_Id.
  - intros this o Ho. unfold Object_get_Id.
    rewrite (run_bind_ok _ _ _ _ _ (Object_read_live _Id this o w Ho)).
    rewrite (run_bind_ok _ _ _ _ _ (Object_read_live _Id this o w Ho)).
    reflexivity.
  - intros image rank x y. split.
    + apply Object_constructor_ids.
    + intros this. apply Object_constructor_returns.
  - intros i o Hi. rewrite Forall_forall in Hlt. apply Hlt.
    apply list_elem_of_lookup. exists i. rewrite ids_of_lookup, Hi. reflexivity.
  - intros args Hlive.
    destruct (Object_construct_all_spec args w Hlive) as (w' & Hrun & Hids).
    exists (seq (length (objects w)) (length args)), w',
           (seqZ (ID w) (Z.of_nat (length args))).
    split; [exact Hrun |]. split; [apply length_seq |]. split; [apply NoDup_seq |].
    split; [| apply NoDup_seqZ].
    apply Forall2_same_length_lookup_2.
    + rewrite length_seq, length_seqZ. lia.
    + intros k r i Hr Hi. apply lookup_seq in Hr as [-> Hk].
      rewrite <- ids_of_lookup, Hids.
      rewrite lookup_app_r by (unfold ids_of; rewrite length_fmap; lia).
      unfold ids_of. rewrite length_fmap.
      replace (length (objects w) + k - length (objects w)) with k by lia.
      exact Hi.
Qed.


(** ** Further properties of the positioned entity *)

Lemma writes_through_rotation :
  writes_through Object_set_rotation Object_with_rotation Konva.with_rotation.
Proof. intros w this o g nd value Ho Hi Hg. apply (Object_set_rotation_live w this o Ho g nd Hi Hg). Qed.

Lemma writes_through_scale :
  writes_through Object_set_scale Object_with_scale Konva_with_scale.
Proof. intros w this o g nd value Ho Hi Hg. apply (Object_set_scale_live w this o Ho g nd Hi Hg). Qed.

Lemma writes_through_x : writes_through Object_set_x Object_with_x Konva.with_x.
Proof. intros w this o g nd value Ho Hi Hg. apply (Object_set_x_live w this o Ho g nd Hi Hg). Qed.

Lemma writes_through_y : writes_through Object_set_y Object_with_y Konva.with_y.
Proof. intros w this o g nd value Ho Hi Hg. apply (Object_set_y_live w this o Ho g nd Hi Hg). Qed.

(** Each of the four transform setters has the shared shape, and what it
    stores keeps the entity's identity and handle. *)
Lemma Object_transform_setters_spec :
  Forall (fun '(set, fo, fn) =>
            writes_through set fo fn
            /\ (forall v o, _image (fo v o) = _image o)
            /\ (forall v o, _Id (fo v o) = _Id o))
         Object_transform_setters.
Proof.
  repeat constructor; auto using writes_through_rotation, writes_through_scale,
    writes_through_x, writes_through_y.
Qed.

(** Two setters of that shape in a row. *)
Lemma writes_through_seq set1 fo1 fn1 set2 fo2 fn2 :
  writes_through set1 fo1 fn1 ->
  writes_through set2 fo2 fn2 ->
  (forall v o, _image (fo1 v o) = _image o) ->
  forall w this o g nd a b,
    objects w !! this = Some o -> _image o = Some g -> nodes w !! g = Some nd ->
    run (set1 this a;; set2 this b) w =
    (Ok tt, World_with_nodes (<[g := fn2 b (fn1 a nd)]> (nodes w))
                             (World_after_field this (fo2 b (fo1 a o)) w)).
Proof.
  intros H1 H2 Hi1 w this o g nd a b Ho Hi Hg.
  rewrite (run_bind_ok _ _ _ _ _ (H1 w this o g nd a Ho Hi Hg)).
  erewrite H2; cycle 1.
  - simpl. eapply lookup_insert_live, Ho.
  - rewrite Hi1. exact Hi.
  - simpl. eapply lookup_insert_live, Hg.
  - unfold World_with_nodes, World_after_field, World_with_objects. simpl.
    rewrite !list_insert_insert_eq. reflexivity.
Qed.

Lemma writes_through_frame set fo fn w this o g nd value :
  writes_through set fo fn ->
  objects w !! this = Some o -> _image o = Some g -> nodes w !! g = Some nd ->
  exists w',
    run (set this value) w = (Ok tt, w')
    /\ objects w' !! this = Some (fo value o)
    /\ nodes w' !! g = Some (fn value nd)
    /\ (forall other, other <> this -> objects w' !! other = objects w !! other)
    /\ (forall n, n <> g -> nodes w' !! n = nodes w !! n)
    /\ ID w' = ID w
    /\ trace w' = trace w.
Proof.
  intros H Ho Hi Hg. eexists. split; [apply (H w this o g nd value Ho Hi Hg) |].
  split; [simpl; eapply lookup_insert_live, Ho |].
  split; [simpl; eapply lookup_insert_live, Hg |].
  split; [| split; [| split; reflexivity]].
  - intros other Hne. simpl. apply list_lookup_insert_ne. congruence.
  - intros n Hne. simpl. apply list_lookup_insert_ne. congruence.
Qed.

(** X1.  On an entity that holds a live handle, each of the [rotation],
    [scale], [x] and [y] setters returns and changes one field of the
    entity and the matching attribute of the handle ([scale]: [scaleX]
    and [scaleY]) and nothing else: the entity's other fields, the
    handle's other attributes, every other entity and node, the counter
    and the effects are as before. *)
Theorem Object_setters_frame
    (w : World) (this : loc) (o : Object) (g : loc) (nd : Konva.Node) (value : Q) :
  objects w !! this = Some o ->
  _image o = Some g ->
  nodes w !! g = Some nd ->
  Forall (fun '(set, fo, fn) =>
            exists w',
              run (set this value) w = (Ok tt, w')
              /\ objects w' !! this = Some (fo value o)
              /\ nodes w' !! g = Some (fn value nd)
              /\ (forall other, other <> this -> objects w' !! other = objects w !! other)
              /\ (forall n, n <> g -> nodes w' !! n = nodes w !! n)
              /\ ID w' = ID w
              /\ trace w' = trace w)
         Object_transform_setters.
Proof.
  intros Ho Hi Hg.
  repeat constructor; apply writes_through_frame;
    auto using writes_through_rotation, writes_through_scale, writes_through_x, writes_through_y.
Qed.

(** X2.  [rank] and [image] read back what was written: on an entity,
    [set rank] then [get rank] returns the value and [set image] then
    [get image] returns the handle given, [undefined] included; neither
    setter touches a node or issues an effect. *)
Theorem Object_rank_image_round_trip
    (w : World) (this : loc) (o : Object) (value : Q) (handle : option loc) :
  objects w !! this = Some o ->
  (exists w', run (Object_set_rank this value;; Object_get_rank this) w = (Ok value, w')
              /\ nodes w' = nodes w /\ trace w' = trace w)
  /\ (exists w', run (Object_set_image this handle;; Object_get_image this) w = (Ok handle, w')
                 /\ nodes w' = nodes w /\ trace w' = trace w).
Proof.
  intros Ho. split; eexists; split.
  - rewrite (run_bind_ok _ _ _ _ _ (Object_set_rank_live w this o Ho value)).
    unfold Object_get_rank.
    erewrite Object_read_live by (simpl; eapply lookup_insert_live, Ho). reflexivity.
  - split; reflexivity.
  - rewrite (run_bind_ok _ _ _ _ _ (Object_set_image_live w this o Ho handle)).
    unfold Object_get_image.
    erewrite Object_read_live by (simpl; eapply lookup_insert_live, Ho). reflexivity.
  - split; reflexivity.
Qed.

(** X3.  After the [image] setter put a live node [g2] in an entity,
    whatever it held before, the transform setters write to [g2] and to
    no other node: the handle that was swapped out is not touched any
    more. *)
Theorem Object_set_image_then_setter
    (w : World) (this : loc) (o : Object) (g2 : loc) (nd2 : Konva.Node) (value : Q) :
  objects w !! this = Some o ->
  nodes w !! g2 = Some nd2 ->
  Forall (fun '(set, fo, fn) =>
            exists w',
              run (Object_set_image this (Some g2);; set this value) w = (Ok tt, w')
              /\ objects w' !! this = Some (fo value (Object_with_image (Some g2) o))
              /\ nodes w' !! g2 = Some (fn value nd2)
              /\ (forall n, n <> g2 -> nodes w' !! n = nodes w !! n))
         Object_transform_setters.
Proof.
  intros Ho Hg.
  assert (K : forall set fo fn, writes_through set fo fn ->
            exists w',
              run (Object_set_image this (Some g2);; set this value) w = (Ok tt, w')
              /\ objects w' !! this = Some (fo value (Object_with_image (Some g2) o))
              /\ nodes w' !! g2 = Some (fn value nd2)
              /\ (forall n, n <> g2 -> nodes w' !! n = nodes w !! n)).
  { intros set fo fn H.
    destruct (writes_through_frame set fo fn
                (World_after_field this (Object_with_image (Some g2) o) w)
                this (Object_with_image (Some g2) o) g2 nd2 value H)
      as (w' & Hrun & Hobj & Hnode & _ & Hothers & _).
    - simpl. eapply lookup_insert_live, Ho.
    - reflexivity.
    - exact Hg.
    - exists w'. split; [| split; [exact Hobj | split; [exact Hnode | exact Hothers]]].
      rewrite (run_bind_ok _ _ _ _ _ (Object_set_image_live w this o Ho (Some g2))).
      exact Hrun. }
  repeat constructor; apply K;
    auto using writes_through_rotation, writes_through_scale, writes_through_x, writes_through_y.
Qed.

(** X4.  On an entity that holds a live handle, transform setters of
    different properties commute: either order leaves the same store.
    And a setter called twice in a row leaves what its second call alone
    would: the last write wins. *)
Theorem Object_setters_commute
    (w : World) (this : loc) (o : Object) (g : loc) (nd : Konva.Node) (a b : Q) :
  objects w !! this = Some o ->
  _image o = Some g ->
  nodes w !! g = Some nd ->
  run (Object_set_x this a;; Object_set_y this b) w
  = run (Object_set_y this b;; Object_set_x this a) w
  /\ run (Object_set_rotation this a;; Object_set_scale this b) w
     = run (Object_set_scale this b;; Object_set_rotation this a) w
  /\ run (Object_set_x this a;; Object_set_rotation this b) w
     = run (Object_set_rotation this b;; Object_set_x this a) w
  /\ run (Object_set_x this a;; Object_set_scale this b) w
     = run (Object_set_scale this b;; Object_set_x this a) w
  /\ run (Object_set_y this a;; Object_set_rotation this b) w
     = run (Object_set_rotation this b;; Object_set_y this a) w
  /\ run (Object_set_y this a;; Object_set_scale this b) w
     = run (Object_set_scale this b;; Object_set_y this a) w
  /\ Forall (fun '(set, _, _) => run (set this a;; set this b) w = run (set this b) w)
            Object_transform_setters.
Proof.
  intros Ho Hi Hg.
  assert (Ir : forall v o0, _image (Object_with_rotation v o0) = _image o0) by reflexivity.
  assert (Is : forall v o0, _image (Object_with_scale v o0) = _image o0) by reflexivity.
  assert (Ix : forall v o0, _image (Object_with_x v o0) = _image o0) by reflexivity.
  assert (Iy : forall v o0, _image (Object_with_y v o0) = _image o0) by reflexivity.
  pose proof (fun s1 fo1 fn1 s2 fo2 fn2 W1 W2 I1 u v =>
                writes_through_seq s1 fo1 fn1 s2 fo2 fn2 W1 W2 I1 w this o g nd u v Ho Hi Hg)
    as S.
  split; [| split; [| split; [| split; [| split; [| split]]]]].
  - rewrite (S _ _ _ _ _ _ writes_through_x writes_through_y Ix),
            (S _ _ _ _ _ _ writes_through_y writes_through_x Iy). reflexivity.
  - rewrite (S _ _ _ _ _ _ writes_through_rotation writes_through_scale Ir),
            (S _ _ _ _ _ _ writes_through_scale writes_through_rotation Is). reflexivity.
  - rewrite (S _ _ _ _ _ _ writes_through_x writes_through_rotation Ix),
            (S _ _ _ _ _ _ writes_through_rotation writes_through_x Ir). reflexivity.
  - rewrite (S _ _ _ _ _ _ writes_through_x writes_through_scale Ix),
            (S _ _ _ _ _ _ writes_through_scale writes_through_x Is). reflexivity.
  - rewrite (S _ _ _ _ _ _ writes_through_y writes_through_rotation Iy),
            (S _ _ _ _ _ _ writes_through_rotation writes_through_y Ir). reflexivity.
  - rewrite (S _ _ _ _ _ _ writes_through_y writes_through_scale Iy),
            (S _ _ _ _ _ _ writes_through_scale writes_through_y Is). reflexivity.
  - repeat constructor.
    + rewrite (S _ _ _ _ _ _ writes_through_rotation writes_through_rotation Ir),
              (writes_through_rotation w this o g nd b Ho Hi Hg). reflexivity.
    + rewrite (S _ _ _ _ _ _ writes_through_scale writes_through_scale Is),
              (writes_through_scale w this o g nd b Ho Hi Hg). reflexivity.
    + rewrite (S _ _ _ _ _ _ writes_through_x writes_through_x Ix),
              (writes_through_x w this o g nd b Ho Hi Hg). reflexivity.
    + rewrite (S _ _ _ _ _ _ writes_through_y writes_through_y Iy),
              (writes_through_y w this o g nd b Ho Hi Hg). reflexivity.
Qed.

(** X5.  Two entities on one handle: a transform setter on one of them
    writes the shared handle but leaves the other entity's stored value
    as it was, so the other entity's getter goes on returning its old
    value while its handle shows the new one. *)
Theorem Object_shared_handle_goes_stale
    (w : World) (this other : loc) (o oo : Object) (g : loc) (nd : Konva.Node) (value : Q) :
  this <> other ->
  objects w !! this = Some o ->
  objects w !! other = Some oo ->
  _image o = Some g ->
  _image oo = Some g ->
  nodes w !! g = Some nd ->
  (exists w', run (Object_set_rotation this value) w = (Ok tt, w')
              /\ run (Object_get_rotation other) w' = (Ok (_rotation oo), w')
              /\ run (Object_this_image other ≫= Konva_read Konva.rotation) w' = (Ok value, w'))
  /\ (exists w', run (Object_set_scale this value) w = (Ok tt, w')
                 /\ run (Object_get_scale other) w' = (Ok (_scale oo), w')
                 /\ run (Object_this_image other ≫= Konva_read Konva.scaleX) w' = (Ok value, w'))
  /\ (exists w', run (Object_set_x this value) w = (Ok tt, w')
                 /\ run (Object_get_x other) w' = (Ok (_x oo), w')
                 /\ run (Object_this_image other ≫= Konva_read Konva.x) w' = (Ok value, w'))
  /\ (exists w', run (Object_set_y this value) w = (Ok tt, w')
                 /\ run (Object_get_y other) w' = (Ok (_y oo), w')
                 /\ run (Object_this_image other ≫= Konva_read Konva.y) w' = (Ok value, w')).
Proof.
  intros Hne Ho Hoo Hi Hio Hg.
  assert (K : forall set fo fn, writes_through set fo fn ->
            exists w',
              run (set this value) w = (Ok tt, w')
              /\ objects w' !! other = Some oo
              /\ nodes w' !! g = Some (fn value nd)).
  { intros set fo fn H.
    destruct (writes_through_frame set fo fn w this o g nd value H Ho Hi Hg)
      as (w' & Hrun & _ & Hnode & Hothers & _).
    exists w'. split; [exact Hrun | split; [| exact Hnode]].
    rewrite Hothers by congruence. exact Hoo. }
  assert (R : forall A (f : Konva.Node -> A) w' nd',
            objects w' !! other = Some oo -> nodes w' !! g = Some nd' ->
            run (Object_this_image other ≫= Konva_read f) w' = (Ok (f nd'), w')).
  { intros A f w' nd' H1 H2.
    rewrite (run_bind_ok _ _ _ _ _ (Object_this_image_live other oo g w' H1 Hio)).
    apply Konva_read_live, H2. }
  split; [| split; [| split]].
  - destruct (K _ _ _ writes_through_rotation) as (w' & Hrun & Hobj & Hnode).
    exists w'. split; [exact Hrun |]. split.
    + apply (Object_read_live _rotation other oo w' Hobj).
    + apply (R _ Konva.rotation w' _ Hobj Hnode).
  - destruct (K _ _ _ writes_through_scale) as (w' & Hrun & Hobj & Hnode).
    exists w'. split; [exact Hrun |]. split.
    + apply (Object_read_live _scale other oo w' Hobj).
    + apply (R _ Konva.scaleX w' _ Hobj Hnode).
  - destruct (K _ _ _ writes_through_x) as (w' & Hrun & Hobj & Hnode).
    exists w'. split; [exact Hrun |]. split.
    + apply (Object_read_live _x other oo w' Hobj).
    + apply (R _ Konva.x w' _ Hobj Hnode).
  - destruct (K _ _ _ writes_through_y) as (w' & Hrun & Hobj & Hnode).
    exists w'. split; [exact Hrun |]. split.
    + apply (Object_read_live _y other oo w' Hobj).
    + apply (R _ Konva.y w' _ Hobj Hnode).
Qed.

(** X6.  A construction without a handle throws after [ID++] has run:
    no node, no effect and no existing entity changes, but the counter
    has moved on, so the next entity constructed on a live handle gets
    the identity after the one that was lost. *)
Theorem Object_constructor_failure_consumes_id
    (w : World) (rank x y rank' x' y' : option Q) (g : loc) :
  is_Some (nodes w !! g) ->
  exists w1 this w2 o,
    run (Object_constructor None rank x y) w = (Throw TypeError, w1)
    /\ nodes w1 = nodes w
    /\ trace w1 = trace w
    /\ (forall i oi, objects w !! i = Some oi -> objects w1 !! i = Some oi)
    /\ ID w1 = (ID w + 1)%Z
    /\ run (Object_constructor (Some g) rank' x' y') w1 = (Ok this, w2)
    /\ objects w2 !! this = Some o
    /\ _Id o = (ID w + 1)%Z.
Proof.
  intros [nd Hg]. eexists _, _, _, _.
  split; [apply Object_constructor_absent |].
  split; [reflexivity |]. split; [reflexivity |].
  split; [intros i oi Hi; simpl; apply lookup_app_l_Some, Hi |].
  split; [reflexivity |].
  split; [apply (Object_constructor_live g nd rank' x' y' (World_constructing _ w) Hg) |].
  split; [apply lookup_alloc | reflexivity].
Qed.

(** X7.  Right after a construction on a live handle the getters return
    the identity taken from the counter, the rank, x and y given (1 and
    the stage centre when omitted), rotation 0, scale 1 and the handle
    itself, whatever rotation and scale the handle has: those two are
    neither read from the handle nor written to it. *)
Theorem Object_getters_after_construction
    (w : World) (g : loc) (nd : Konva.Node) (rank x y : option Q) :
  nodes w !! g = Some nd ->
  exists w' nd',
    run (this ← Object_constructor (Some g) rank x y;
         id ← Object_get_Id this;
         rk ← Object_get_rank this;
         ro ← Object_get_rotation this;
         sc ← Object_get_scale this;
         px ← Object_get_x this;
         py ← Object_get_y this;
         im ← Object_get_image this;
         mret (id, rk, ro, sc, px, py, im)) w
    = (Ok (ID w, default 1%Q rank, 0%Q, 1%Q,
           default (STAGE_WIDTH / 2)%Q x, default (STAGE_HEIGHT / 2)%Q y, Some g), w')
    /\ nodes w' !! g = Some nd'
    /\ Konva.rotation nd' = Konva.rotation nd
    /\ Konva.scaleX nd' = Konva.scaleX nd
    /\ Konva.scaleY nd' = Konva.scaleY nd.
Proof.
  intros Hg. eexists _, _. split.
  - rewrite (run_bind_ok _ _ _ _ _ (Object_constructor_live g nd rank x y w Hg)).
    unfold Object_get_Id, Object_get_rank, Object_get_rotation, Object_get_scale,
      Object_get_x, Object_get_y, Object_get_image.
    repeat (erewrite run_bind_ok by (apply Object_read_live, lookup_alloc)).
    reflexivity.
  - split; [simpl; eapply lookup_insert_live, Hg |]. repeat split.
Qed.

(** ** Entities and screens do not interfere *)

Create HintDb view discriminated.

Lemma keeps_view_ret {A} (a : A) : keeps_view (mret a).
Proof. intros w. split; [reflexivity |]. intros n nd H. exists nd. auto. Qed.

Lemma keeps_view_throw {A} (e : JsError) : keeps_view (@throw A e).
Proof. intros w. split; [reflexivity |]. intros n nd H. exists nd. auto. Qed.

Lemma keeps_view_get_world : keeps_view get_world.
Proof. intros w. split; [reflexivity |]. intros n nd H. exists nd. auto. Qed.

Lemma keeps_view_modify_world f :
  (forall w, nodes (f w) = nodes w /\ trace (f w) = trace w) -> keeps_view (modify_world f).
Proof.
  intros Hf w. destruct (Hf w) as [Hn Ht]. unfold run, modify_world. simpl.
  split; [exact Ht |]. intros n nd H. exists nd. rewrite Hn. auto.
Qed.

Lemma keeps_view_bind {A B} (c : M A) (k : A -> M B) :
  keeps_view c -> (forall a, keeps_view (k a)) -> keeps_view (c ≫= k).
Proof.
  intros Hc Hk w. rewrite run_bind. destruct (Hc w) as [Ht Hn].
  destruct (run c w) as [[a | e] w1]; simpl in Ht, Hn; [| split; assumption].
  destruct (Hk a w1) as [Ht1 Hn1]. split; [congruence |].
  intros n nd H. destruct (Hn n nd H) as (nd1 & H1 & Hv1 & Hl1).
  destruct (Hn1 n nd1 H1) as (nd2 & H2 & Hv2 & Hl2).
  exists nd2. split; [exact H2 | split; congruence].
Qed.

Lemma keeps_view_Konva_read {A} (f : Konva.Node -> A) n : keeps_view (Konva_read f n).
Proof.
  intros w. unfold Konva_read, run, mbind, M_bind; simpl.
  destruct (nodes w !! n); (split; [reflexivity |]); intros m nd H; exists nd; auto.
Qed.

Lemma keeps_view_Konva_write f n :
  (forall nd, Konva.visible (f nd) = Konva.visible nd /\ Konva.layer (f nd) = Konva.layer nd) ->
  keeps_view (Konva_write f n).
Proof.
  intros Hf w. unfold Konva_write, run, mbind, M_bind; simpl.
  destruct (nodes w !! n) as [nd0 |] eqn:Hn; (split; [reflexivity |]); intros m nd H;
    [| exists nd; auto].
  simpl. destruct (decide (n = m)) as [-> | Hne].
  - exists (f nd0). rewrite (lookup_insert_live _ _ _ _ Hn).
    assert (nd0 = nd) as -> by congruence. destruct (Hf nd). auto.
  - exists nd. rewrite list_lookup_insert_ne by exact Hne. auto.
Qed.

Lemma keeps_view_Konva_new config : keeps_view (Konva_new config).
Proof.
  intros w. split; [reflexivity |]. intros n nd H. exists nd.
  split; [| auto]. simpl. apply lookup_app_l_Some, H.
Qed.

Lemma keeps_view_Object_read {A} (f : Object -> A) this : keeps_view (Object_read f this).
Proof.
  intros w. unfold Object_read, run, mbind, M_bind; simpl.
  destruct (objects w !! this); (split; [reflexivity |]); intros m nd H; exists nd; auto.
Qed.

Lemma keeps_view_Object_write f this : keeps_view (Object_write f this).
Proof.
  intros w. unfold Object_write, run, mbind, M_bind; simpl.
  destruct (objects w !! this); (split; [reflexivity |]); intros m nd H; exists nd; auto.
Qed.

Lemma keeps_view_deref o : keeps_view (deref o).
Proof. destruct o; [apply keeps_view_ret | apply keeps_view_throw]. Qed.

#[local] Hint Resolve keeps_view_ret keeps_view_throw keeps_view_get_world
  keeps_view_Konva_read keeps_view_Konva_new keeps_view_Object_read
  keeps_view_Object_write keeps_view_deref : view.
#[local] Hint Extern 1 (keeps_view (_ ≫= _)) => apply keeps_view_bind; [| intros ?] : view.
#[local] Hint Extern 1 (keeps_view (Konva_write _ _)) =>
  apply keeps_view_Konva_write; intros ?; split; reflexivity : view.
#[local] Hint Extern 1 (keeps_view (modify_world _)) =>
  apply keeps_view_modify_world; intros ?; split; reflexivity : view.

Lemma keeps_view_perform c : keeps_view (Object_perform c).
Proof.
  destruct c; cbn [Object_perform];
    unfold Object_constructor, Object_alloc; keeps_ids_unfold; auto 30 with view.
Qed.

(** X8.  Constructing entities and reading or writing their properties
    never shows or hides anything and never asks for a redraw: after any
    run of such calls the effects are as before and every node that was
    there has the [visible] attribute and the layer it had, so an app's
    views report what they reported. *)
Theorem Object_calls_keep_view (calls : list Object_call) (w : World) :
  trace (client_run calls w) = trace w
  /\ (forall n nd,
        nodes w !! n = Some nd ->
        exists nd',
          nodes (client_run calls w) !! n = Some nd'
          /\ Konva.visible nd' = Konva.visible nd
          /\ Konva.layer nd' = Konva.layer nd)
  /\ (forall a : App GameScreenModel,
        App_wf w a -> visible_views (client_run calls w) a = visible_views w a).
Proof.
  assert (K : trace (client_run calls w) = trace w
              /\ forall n nd,
                   nodes w !! n = Some nd ->
                   exists nd',
                     nodes (client_run calls w) !! n = Some nd'
                     /\ Konva.visible nd' = Konva.visible nd
                     /\ Konva.layer nd' = Konva.layer nd).
  { revert w. induction calls as [| c calls IH]; intros w.
    - split; [reflexivity |]. intros n nd H. exists nd. auto.
    - destruct (keeps_view_perform c w) as [Ht Hn].
      destruct (IH (client_step w c)) as [Ht' Hn'].
      split; [simpl; unfold client_step in *; congruence |].
      intros n nd H. destruct (Hn n nd H) as (nd1 & H1 & Hv1 & Hl1).
      destruct (Hn' n nd1 H1) as (nd2 & H2 & Hv2 & Hl2).
      exists nd2. split; [exact H2 | split; congruence]. }
  destruct K as [Kt Kn]. split; [exact Kt | split; [exact Kn |]].
  intros a (_ & [ndm Hm] & [ndg Hg]).
  destruct (Kn _ _ Hm) as (ndm' & Hm' & Hvm & _).
  destruct (Kn _ _ Hg) as (ndg' & Hg' & Hvg & _).
  unfold visible_views, reports_visible. rewrite Hm, Hg, Hm', Hg', Hvm, Hvg. reflexivity.
Qed.

(** ** Further properties of the menu view *)

(** X9.  [show()] and [hide()] of a menu view whose group is live
    return, write [visible] on that group and touch nothing else in the
    store: its other attributes, every other node, the counter and the
    entities stay.  The redraw is asked of the group's layer right after
    the write when the group is attached to one; a group that is not yet
    attached gets the write and no redraw, and nothing is thrown. *)
Theorem MenuScreenView_show_hide_frame
    (v : MenuScreenView) (w : World) (nd : Konva.Node) (b : bool) :
  nodes w !! getGroup v = Some nd ->
  exists w',
    run (if b then MenuScreenView_show v else MenuScreenView_hide v) w = (Ok tt, w')
    /\ nodes w' !! getGroup v = Some (Konva.with_visible b nd)
    /\ (forall n, n <> getGroup v -> nodes w' !! n = nodes w !! n)
    /\ ID w' = ID w
    /\ objects w' = objects w
    /\ trace w' = trace w ++ EVisible (getGroup v) b ::
                             match Konva.layer nd with
                             | Some l => [EDraw l]
                             | None => []
                             end.
Proof.
  cbn [getGroup MenuScreenView_View]. intros H.
  exists (World_after_visible (MenuScreenView_group v) b nd w).
  split; [destruct b; [apply MenuScreenView_show_live | apply MenuScreenView_hide_live]; exact H |].
  split; [apply (after_visible_lookup _ b nd nd w H) |].
  split; [intros n Hne; apply after_visible_lookup_ne; congruence |].
  repeat split.
Qed.

Lemma last_cons_default {A} (rest : list A) (b d : A) :
  List.last (b :: rest) d = List.last rest b.
Proof.
  revert b d. induction rest as [| r rest IH]; intros b d; [reflexivity |].
  change (List.last (b :: r :: rest) d) with (List.last (r :: rest) d).
  rewrite !IH. reflexivity.
Qed.

Lemma MenuScreenView_calls_spec (v : MenuScreenView) (calls : list bool) : forall w nd,
  nodes w !! MenuScreenView_group v = Some nd ->
  run (MenuScreenView_calls v calls) w =
  (Ok tt,
   mkWorld (ID w)
           (<[MenuScreenView_group v :=
                Konva.with_visible (List.last calls (Konva.visible nd)) nd]> (nodes w))
           (objects w)
           (trace w ++ flat_map (fun b => EVisible (MenuScreenView_group v) b :: redraw nd) calls)).
Proof.
  induction calls as [| b calls IH]; intros w nd H.
  - simpl. rewrite app_nil_r. unfold run, mret, M_ret. f_equal.
    destruct w as [i ns os tr]. simpl in *. f_equal.
    symmetry. apply list_insert_id. rewrite H. destruct nd; reflexivity.
  - assert (Hstep : run (if b then MenuScreenView_show v else MenuScreenView_hide v) w
                    = (Ok tt, World_after_visible (MenuScreenView_group v) b nd w)).
    { destruct b; [apply MenuScreenView_show_live | apply MenuScreenView_hide_live]; exact H. }
    assert (Hnext : nodes (World_after_visible (MenuScreenView_group v) b nd w)
                    !! MenuScreenView_group v = Some (Konva.with_visible b nd)).
    { apply (after_visible_lookup _ b nd nd w H). }
    transitivity (run (MenuScreenView_calls v calls)
                      (World_after_visible (MenuScreenView_group v) b nd w)).
    { destruct b; cbn [MenuScreenView_calls];
        rewrite (run_bind_ok _ _ _ _ _ Hstep); reflexivity. }
    rewrite (IH _ _ Hnext), last_cons_default. f_equal.
    unfold World_after_visible. simpl.
    rewrite list_insert_insert_eq, <- app_assoc. reflexivity.
Qed.

(** X10.  Any run of [show()] and [hide()] calls on a menu view whose
    group is live returns; the group ends with the [visible] the last
    call wrote (or the one it had, when there was no call) and is
    otherwise as before; every call contributes its write and its redraw
    request to the effects, in order, also when it changes nothing. *)
Theorem MenuScreenView_last_call_wins
    (v : MenuScreenView) (calls : list bool) (w : World) (nd : Konva.Node) :
  nodes w !! getGroup v = Some nd ->
  exists w',
    run (MenuScreenView_calls v calls) w = (Ok tt, w')
    /\ reports_visible w' v = List.last calls (Konva.visible nd)
    /\ nodes w' !! getGroup v
       = Some (Konva.with_visible (List.last calls (Konva.visible nd)) nd)
    /\ (forall n, n <> getGroup v -> nodes w' !! n = nodes w !! n)
    /\ trace w' = trace w ++ flat_map (fun b => EVisible (getGroup v) b :: redraw nd) calls.
Proof.
  cbn [getGroup MenuScreenView_View]. intros H.
  eexists. split; [apply (MenuScreenView_calls_spec v calls w nd H) |].
  assert (L : nodes (mkWorld (ID w)
                       (<[MenuScreenView_group v :=
                            Konva.with_visible (List.last calls (Konva.visible nd)) nd]> (nodes w))
                       (objects w)
                       (trace w ++ flat_map (fun b => EVisible (MenuScreenView_group v) b
                                                      :: redraw nd) calls))
              !! MenuScreenView_group v
              = Some (Konva.with_visible (List.last calls (Konva.visible nd)) nd)).
  { simpl. eapply lookup_insert_live, H. }
  split; [unfold reports_visible; cbn [getGroup MenuScreenView_View]; rewrite L; reflexivity |].
  split; [exact L |].
  split; [| reflexivity].
  intros n Hne. simpl. apply list_lookup_insert_ne. congruence.
Qed.

(** ** Further properties of the app *)

(** Konva primitives on a store whose nodes are some old ones followed
    by an explicit list of new ones. *)
Lemma Konva_new_appended i (ns l : list Konva.Node) os tr config :
  run (Konva_new config) (mkWorld i (ns ++ l) os tr)
  = (Ok (length ns + length l), mkWorld i (ns ++ (l ++ [config])) os tr).
Proof.
  unfold Konva_new, run, mbind, M_bind, get_world, modify_world, World_with_nodes. simpl.
  rewrite length_app, <- app_assoc. reflexivity.
Qed.

Lemma Konva_read_appended {A} (f : Konva.Node -> A) i (ns l : list Konva.Node) os tr k nd :
  l !! k = Some nd ->
  run (Konva_read f (length ns + k)) (mkWorld i (ns ++ l) os tr)
  = (Ok (f nd), mkWorld i (ns ++ l) os tr).
Proof.
  intros H. apply Konva_read_live. simpl.
  rewrite lookup_app_r by lia. rewrite <- H. f_equal. lia.
Qed.

Lemma Konva_write_appended f i (ns l : list Konva.Node) os tr k nd :
  l !! k = Some nd ->
  run (Konva_write f (length ns + k)) (mkWorld i (ns ++ l) os tr)
  = (Ok tt, mkWorld i (ns ++ <[k := f nd]> l) os tr).
Proof.
  intros H. erewrite Konva_write_live; cycle 1.
  { simpl. rewrite lookup_app_r by lia. rewrite <- H. f_equal. lia. }
  unfold World_with_nodes. simpl. rewrite insert_app_r. reflexivity.
Qed.

Lemma Konva_visible_appended i (ns l : list Konva.Node) os tr k nd b :
  l !! k = Some nd ->
  run (Konva_visible (length ns + k) b) (mkWorld i (ns ++ l) os tr)
  = (Ok tt, mkWorld i (ns ++ <[k := Konva.with_visible b nd]> l) os
                    (tr ++ [EVisible (length ns + k) b])).
Proof.
  intros H. unfold Konva_visible.
  rewrite (run_bind_ok _ _ _ _ _ (Konva_write_appended _ i ns l os tr k nd H)). reflexivity.
Qed.

Lemma Konva_draw_run l i ns os tr :
  run (Konva_draw l) (mkWorld i ns os tr) = (Ok tt, mkWorld i ns os (tr ++ [EDraw l])).
Proof. reflexivity. Qed.

Lemma insert_at_end {A} (l : list A) (d x : A) : <[length l := x]> (l ++ [d]) = l ++ [x].
Proof. rewrite insert_app_r_alt by lia. rewrite Nat.sub_diag. reflexivity. Qed.

Lemma Konva_new_Layer_appended i (ns l : list Konva.Node) os tr :
  run Konva_new_Layer (mkWorld i (ns ++ l) os tr)
  = (Ok (length ns + length l),
     mkWorld i (ns ++ (l ++ [Konva.with_layer (Some (length ns + length l)) Konva.default]))
             os tr).
Proof.
  unfold Konva_new_Layer.
  rewrite (run_bind_ok _ _ _ _ _ (Konva_new_appended i ns l os tr _)).
  erewrite run_bind_ok; cycle 1.
  { eapply Konva_write_appended, lookup_alloc. }
  rewrite insert_at_end. reflexivity.
Qed.

Lemma Konva_stage_add_appended i (ns l : list Konva.Node) os tr ks kl :
  is_Some (l !! ks) -> is_Some (l !! kl) ->
  run (Konva_stage_add (length ns + ks) (length ns + kl)) (mkWorld i (ns ++ l) os tr)
  = (Ok tt, mkWorld i (ns ++ l) os tr).
Proof.
  intros [a Ha] [b Hb]. unfold Konva_stage_add.
  rewrite (run_bind_ok _ _ _ _ _ (Konva_read_appended _ i ns l os tr ks a Ha)).
  rewrite (run_bind_ok _ _ _ _ _ (Konva_read_appended _ i ns l os tr kl b Hb)).
  reflexivity.
Qed.

Lemma MenuScreenController_constructor_appended i (ns l : list Konva.Node) os tr :
  run MenuScreenController_constructor (mkWorld i (ns ++ l) os tr)
  = (Ok (mkMenuScreenController (mkMenuScreenView (length ns + length l))),
     mkWorld i (ns ++ (l ++ [Konva.with_visible true Konva.default])) os tr).
Proof.
  unfold MenuScreenController_constructor, MenuScreenView_constructor.
  rewrite (run_bind_ok _ _ _ _ _
             (run_bind_ok _ _ _ _ _ (Konva_new_appended i ns l os tr _))).
  reflexivity.
Qed.

Lemma GameScreenController_constructor_appended i (ns l : list Konva.Node) os tr :
  run GameScreenController_constructor (mkWorld i (ns ++ l) os tr)
  = (Ok (mkGameScreenController GameScreenModel_constructor
                                (mkGameScreenView (length ns + length l))),
     mkWorld i (ns ++ (l ++ [Konva.with_visible false Konva.default])) os tr).
Proof.
  unfold GameScreenController_constructor, GameScreenView_constructor.
  rewrite (run_bind_ok _ _ _ _ _
             (run_bind_ok _ _ _ _ _ (Konva_new_appended i ns l os tr _))).
  reflexivity.
Qed.

Lemma MenuScreenView_show_appended i (ns l : list Konva.Node) os tr k nd :
  l !! k = Some nd ->
  run (MenuScreenView_show (mkMenuScreenView (length ns + k))) (mkWorld i (ns ++ l) os tr)
  = (Ok tt, mkWorld i (ns ++ <[k := Konva.with_visible true nd]> l) os
                    (tr ++ EVisible (length ns + k) true :: redraw nd)).
Proof.
  intros H. erewrite MenuScreenView_show_live; cycle 1.
  { simpl. rewrite lookup_app_r by lia. rewrite <- H. f_equal. lia. }
  unfold World_after_visible. simpl. rewrite insert_app_r. reflexivity.
Qed.

(** The app and the store [new App(container)] makes of a store. *)
Lemma App_constructor_run container w :
  run (App_constructor container) w =
  (Ok (mkApp (length (nodes w)) (length (nodes w) + 1)
             (mkMenuScreenController (mkMenuScreenView (length (nodes w) + 2)))
             (mkGameScreenController GameScreenModel_constructor
                                     (mkGameScreenView (length (nodes w) + 3)))),
   mkWorld (ID w)
           (nodes w ++
              [ Konva.with_size STAGE_WIDTH STAGE_HEIGHT Konva.default;
                Konva.with_layer (Some (length (nodes w) + 1)) Konva.default;
                Konva.with_layer (Some (length (nodes w) + 1))
                                 (Konva.with_visible true Konva.default);
                Konva.with_layer (Some (length (nodes w) + 1))
                                 (Konva.with_visible false Konva.default) ])
           (objects w)
           (trace w ++ [EDraw (length (nodes w) + 1); EVisible (length (nodes w) + 2) true;
                        EDraw (length (nodes w) + 1)])).
Proof.
  destruct w as [i ns os tr]. cbn [ID nodes objects trace].
  rewrite <- (Nat.add_0_r (length ns)) at 1.
  unfold App_constructor.
  rewrite <- (app_nil_r ns) at 1.
  erewrite run_bind_ok by apply Konva_new_appended. cbn [length app].
  erewrite run_bind_ok by apply Konva_new_Layer_appended. cbn [length app].
  erewrite run_bind_ok by (apply Konva_stage_add_appended; eexists; reflexivity).
  erewrite run_bind_ok by apply MenuScreenController_constructor_appended. cbn [length app].
  erewrite run_bind_ok by apply GameScreenController_constructor_appended. cbn [length app].
  unfold Konva_add.
  erewrite run_bind_ok by (eapply Konva_write_appended; reflexivity).
  erewrite run_bind_ok by (eapply Konva_write_appended; reflexivity).
  erewrite run_bind_ok by apply Konva_draw_run.
  erewrite run_bind_ok by (eapply MenuScreenView_show_appended; reflexivity).
  unfold run, mret, M_ret. cbn. rewrite <- app_assoc. reflexivity.
Qed.

(** X11.  [new App(container)] on any store returns.  The stage, the
    layer and the two view groups are nodes that were not there before;
    the nodes that were there, the counter and the entities are
    untouched.  The stage has the size of the constants; the two groups
    are distinct and both attached to the new layer; the menu view
    reports visible and the game view does not; the effects are one
    redraw of the layer, then the menu group's write and its redraw. *)
Theorem App_constructor_on_any_store (container : string) (w : World) :
  exists a w',
    run (App_constructor container) w = (Ok a, w')
    /\ nodes w !! App_stage a = None
    /\ nodes w !! App_layer a = None
    /\ nodes w !! getGroup (getView (App_menuController a)) = None
    /\ nodes w !! getGroup (getView (App_gameController a)) = None
    /\ (forall n nd, nodes w !! n = Some nd -> nodes w' !! n = Some nd)
    /\ ID w' = ID w
    /\ objects w' = objects w
    /\ Konva.width <$> nodes w' !! App_stage a = Some STAGE_WIDTH
    /\ Konva.height <$> nodes w' !! App_stage a = Some STAGE_HEIGHT
    /\ App_wf w' a
    /\ App_attached w' a
    /\ reports_visible w' (getView (App_menuController a)) = true
    /\ reports_visible w' (getView (App_gameController a)) = false
    /\ trace w' = trace w ++ [EDraw (App_layer a);
                              EVisible (getGroup (getView (App_menuController a))) true;
                              EDraw (App_layer a)].
Proof.
  eexists _, _. split; [apply App_constructor_run |].
  assert (L : forall k nd i os tr (l : list Konva.Node),
            l !! k = Some nd ->
            nodes (mkWorld i (nodes w ++ l) os tr) !! (length (nodes w) + k) = Some nd).
  { intros k nd i os tr l H. cbn [nodes]. rewrite lookup_app_r by lia.
    rewrite <- H. f_equal. lia. }
  unfold App_wf, App_attached, reports_visible.
  cbn [App_stage App_layer App_menuController App_gameController getGroup getView ViewOf_View
       MenuScreenView_View GameScreenView_View MenuScreenController_ScreenController
       GameScreenController_ScreenController MenuScreenController_view
       GameScreenController_view MenuScreenView_group GameScreenView_group ID objects trace].
  do 4 (split; [apply lookup_ge_None_2; lia |]).
  split; [intros n nd H; cbn [nodes]; apply lookup_app_l_Some, H |].
  do 2 (split; [reflexivity |]).
  assert (L0 : forall i os tr x (l : list Konva.Node),
             nodes (mkWorld i (nodes w ++ x :: l) os tr) !! length (nodes w) = Some x).
  { intros. cbn [nodes]. apply list_lookup_middle. reflexivity. }
  rewrite !L0. erewrite !L by reflexivity. cbn.
  do 2 (split; [reflexivity |]).
  split; [split; [lia | split; eauto] |].
  repeat split.
Qed.

(** What one call of [switchToScreen] makes of the nodes, by the tag. *)
Lemma App_switchToScreen_type_nodes w (a : App GameScreenModel) t ndm ndg :
  let gm := MenuScreenView_group (MenuScreenController_view (App_menuController a)) in
  let gg := GameScreenView_group (GameScreenController_view (App_gameController a)) in
  gm <> gg -> nodes w !! gm = Some ndm -> nodes w !! gg = Some ndg ->
  exists a' w',
    run (App_switchToScreen_type a t) w = (Ok a', w')
    /\ App_stage a' = App_stage a
    /\ App_layer a' = App_layer a
    /\ App_menuController a' = App_menuController a
    /\ GameScreenController_view (App_gameController a')
       = GameScreenController_view (App_gameController a)
    /\ GameScreenController_model (App_gameController a')
       = (if negb (String.eqb t "menu") && String.eqb t "game"
          then GameScreenModel_reset (GameScreenController_model (App_gameController a))
          else GameScreenController_model (App_gameController a))
    /\ nodes w' !! gm = Some (Konva.with_visible (String.eqb t "menu") ndm)
    /\ nodes w' !! gg
       = Some (Konva.with_visible (negb (String.eqb t "menu") && String.eqb t "game") ndg)
    /\ (forall n, n <> gm -> n <> gg -> nodes w' !! n = nodes w !! n)
    /\ ID w' = ID w
    /\ objects w' = objects w.
Proof.
  intros gm gg Hne Hm Hg.
  assert (Hne' : gg <> gm) by congruence.
  pose proof (hidden_lookup_menu w a ndm ndg Hne Hm) as Lm.
  pose proof (hidden_lookup_game w a ndm ndg Hne Hg) as Lg.
  fold gm in Lm, Lg. fold gg in Lm, Lg.
  assert (Lo : forall n, n <> gm -> n <> gg ->
                 nodes (World_hidden gm gg ndm ndg w) !! n = nodes w !! n).
  { intros n H1 H2. unfold World_hidden.
    rewrite !after_visible_lookup_ne by congruence. reflexivity. }
  destruct (String.eqb t "menu") eqn:E1; [| destruct (String.eqb t "game") eqn:E2].
  - apply String.eqb_eq in E1. subst t.
    eexists _, _. split; [apply (App_switchToScreen_menu_live w a ndm ndg Hne Hm Hg) |].
    do 5 (split; [reflexivity |]). fold gm gg.
    split; [rewrite (after_visible_lookup gm true _ _ _ Lm); reflexivity |].
    split; [rewrite (after_visible_lookup_ne gm gg _ _ _ Hne); exact Lg |].
    split; [| split; reflexivity].
    intros n H1 H2. rewrite after_visible_lookup_ne by congruence. apply Lo; assumption.
  - apply String.eqb_eq in E2. subst t.
    eexists _, _. split; [apply (App_switchToScreen_game_live w a ndm ndg Hne Hm Hg) |].
    do 5 (split; [reflexivity |]). fold gm gg.
    split; [rewrite (after_visible_lookup_ne gg gm _ _ _ Hne'); exact Lm |].
    split; [rewrite (after_visible_lookup gg true _ _ (World_emit EReset _) Lg); reflexivity |].
    split; [| split; reflexivity].
    intros n H1 H2. rewrite after_visible_lookup_ne by congruence. apply Lo; assumption.
  - eexists _, _.
    split; [apply (App_switchToScreen_type_other_live w a ndm ndg Hne Hm Hg t E1 E2) |].
    do 5 (split; [reflexivity |]). fold gm gg.
    split; [exact Lm |]. split; [exact Lg |]. split; [exact Lo | split; reflexivity].
Qed.

Lemma World_switched_trace gm gg ndm ndg screen w :
  trace (World_switched gm gg ndm ndg screen w)
  = trace w ++ hide_effects gm gg ndm ndg ++ entry_effects gm gg ndm ndg screen.
Proof.
  destruct screen; unfold hide_effects, entry_effects; simpl;
    rewrite <- !app_assoc; simpl; rewrite <- ?app_assoc; reflexivity.
Qed.

(** X12.  [switchToScreen] on an app whose views are two distinct live
    groups returns and leaves the view of the screen asked for visible
    and the other one hidden.  It writes nothing but the [visible]
    attribute of the two groups: every other node, the counter and the
    entities are untouched, and the app keeps its stage, layer and
    views. *)
Theorem App_switchToScreen_shows_requested
    (w : World) (a : App GameScreenModel) (screen : Screen) :
  App_wf w a ->
  exists a' w',
    run (App_switchToScreen a screen) w = (Ok a', w')
    /\ reports_visible w' (getView (App_menuController a'))
       = match screen with ScreenMenu => true | ScreenGame => false end
    /\ reports_visible w' (getView (App_gameController a'))
       = match screen with ScreenMenu => false | ScreenGame => true end
    /\ App_stage a' = App_stage a
    /\ App_layer a' = App_layer a
    /\ getView (App_menuController a') = getView (App_menuController a)
    /\ getView (App_gameController a') = getView (App_gameController a)
    /\ (forall n,
          n <> getGroup (getView (App_menuController a)) ->
          n <> getGroup (getView (App_gameController a)) ->
          nodes w' !! n = nodes w !! n)
    /\ (forall n nd,
          nodes w !! n = Some nd ->
          exists b, nodes w' !! n = Some nd \/ nodes w' !! n = Some (Konva.with_visible b nd))
    /\ ID w' = ID w
    /\ objects w' = objects w.
Proof.
  intros Hwf. destruct (App_wf_nodes _ _ Hwf) as (ndm & ndg & Hm & Hg).
  destruct Hwf as (Hne & _ & _). view_groups.
  destruct (App_switchToScreen_type_nodes w a (Screen_type screen) ndm ndg Hne Hm Hg)
    as (a' & w' & Hrun & Hs & Hl & Hmc & Hgv & _ & Lm & Lg & Lo & Hid & Hobj).
  exists a', w'. split; [exact Hrun |].
  unfold reports_visible. view_groups. rewrite Hmc, Hgv, Lm, Lg.
  split; [destruct screen; reflexivity |].
  split; [destruct screen; reflexivity |].
  do 4 (split; [auto |]).
  split; [exact Lo |]. split; [| split; assumption].
  intros n nd Hn.
  destruct (decide (n = MenuScreenView_group (MenuScreenController_view (App_menuController a))))
    as [-> | N1].
  { assert (nd = ndm) as -> by congruence. eexists. right. exact Lm. }
  destruct (decide (n = GameScreenView_group (GameScreenController_view (App_gameController a))))
    as [-> | N2].
  { assert (nd = ndg) as -> by congruence. eexists. right. exact Lg. }
  exists true. left. rewrite Lo by assumption. exact Hn.
Qed.

(** X13.  On an app whose views are two distinct live groups, what a
    call of [switchToScreen] leaves of the nodes does not depend on the
    calls before it: two calls in a row, with any two tags, leave the
    nodes that the second call alone would; calling it twice with the
    same tag leaves the nodes of one call. *)
Theorem App_switchToScreen_last_call_wins
    (w : World) (a : App GameScreenModel) (first second : string) :
  App_wf w a ->
  exists a2 w2 a' w',
    run (a1 ← App_switchToScreen_type a first; App_switchToScreen_type a1 second) w
    = (Ok a2, w2)
    /\ run (App_switchToScreen_type a second) w = (Ok a', w')
    /\ nodes w2 = nodes w'
    /\ visible_views w2 a2 = visible_views w' a'.
Proof.
  intros Hwf. destruct (App_wf_nodes _ _ Hwf) as (ndm & ndg & Hm & Hg).
  destruct Hwf as (Hne & _ & _). view_groups.
  destruct (App_switchToScreen_type_nodes w a first ndm ndg Hne Hm Hg)
    as (a1 & w1 & Hrun1 & _ & _ & Hmc1 & Hgv1 & _ & Lm1 & Lg1 & Lo1 & _).
  assert (Hne1 : MenuScreenView_group (MenuScreenController_view (App_menuController a1)) <>
                 GameScreenView_group (GameScreenController_view (App_gameController a1)))
    by (rewrite Hmc1, Hgv1; exact Hne).
  destruct (App_switchToScreen_type_nodes w1 a1 second _ _ Hne1
              ltac:(rewrite Hmc1; exact Lm1) ltac:(rewrite Hgv1; exact Lg1))
    as (a2 & w2 & Hrun2 & _ & _ & Hmc2 & Hgv2 & _ & Lm2 & Lg2 & Lo2 & _).
  destruct (App_switchToScreen_type_nodes w a second ndm ndg Hne Hm Hg)
    as (a' & w' & Hrun' & _ & _ & Hmc' & Hgv' & _ & Lm' & Lg' & Lo' & _).
  rewrite Hmc1, Hgv1 in *.
  assert (Hnodes : forall i, nodes w2 !! i = nodes w' !! i).
  { intros i.
    destruct (decide
      (i = MenuScreenView_group (MenuScreenController_view (App_menuController a))))
      as [-> | N1]; [rewrite Lm2, Lm'; reflexivity |].
    destruct (decide
      (i = GameScreenView_group (GameScreenController_view (App_gameController a))))
      as [-> | N2]; [rewrite Lg2, Lg'; reflexivity |].
    rewrite Lo2, Lo1, Lo' by assumption. reflexivity. }
  exists a2, w2, a', w'.
  split; [rewrite (run_bind_ok _ _ _ _ _ Hrun1); exact Hrun2 |].
  split; [exact Hrun' |].
  split; [apply list_eq, Hnodes |].
  unfold visible_views, reports_visible. view_groups.
  rewrite Hmc2, Hgv2, Hmc', Hgv', !Hnodes. reflexivity.
Qed.

(** X14.  A tag that is neither ["menu"] nor ["game"] is not an error
    for [switchToScreen]: the [switch] has no [default], so the call
    returns with the same app, both views hidden by the two [hide]
    calls, and no reset and no show among its effects. *)
Theorem App_switchToScreen_unknown_tag
    (w : World) (a : App GameScreenModel) (type : string) :
  App_wf w a ->
  Screen_recognized type = false ->
  exists w' es,
    run (App_switchToScreen_type a type) w = (Ok a, w')
    /\ reports_visible w' (getView (App_menuController a)) = false
    /\ reports_visible w' (getView (App_gameController a)) = false
    /\ visible_views w' a = 0
    /\ trace w' = trace w ++ es
    /\ forallb (fun e => match e with
                         | EVisible _ false | EDraw _ => true
                         | _ => false
                         end) es = true.
Proof.
  intros Hwf Hrec. destruct (App_wf_nodes _ _ Hwf) as (ndm & ndg & Hm & Hg).
  destruct Hwf as (Hne & _ & _). view_groups.
  unfold Screen_recognized in Hrec. apply orb_false_iff in Hrec as [E1 E2].
  pose proof (hidden_lookup_menu w a ndm ndg Hne Hm) as Lm.
  pose proof (hidden_lookup_game w a ndm ndg Hne Hg) as Lg.
  eexists _, (hide_effects _ _ ndm ndg).
  split; [apply (App_switchToScreen_type_other_live w a ndm ndg Hne Hm Hg type E1 E2) |].
  unfold visible_views, reports_visible. view_groups. rewrite Lm, Lg.
  do 3 (split; [reflexivity |]).
  split.
  - unfold World_hidden, World_after_visible, hide_effects, trace.
    rewrite <- !app_assoc. reflexivity.
  - unfold hide_effects, redraw. destruct (Konva.layer ndm), (Konva.layer ndg); reflexivity.
Qed.

(** X15.  Once both groups are attached to the app's layer, as the
    constructor leaves them, every [switchToScreen] with a [Screen] asks
    that layer to redraw exactly three times, once after each of the two
    hides and once after the show, and the groups stay attached. *)
Theorem App_switchToScreen_three_redraws
    (w : World) (a : App GameScreenModel) (screen : Screen) :
  App_wf w a ->
  App_attached w a ->
  exists a' w' es,
    run (App_switchToScreen a screen) w = (Ok a', w')
    /\ trace w' = trace w ++ es
    /\ List.filter Effect_is_draw es
       = [EDraw (App_layer a); EDraw (App_layer a); EDraw (App_layer a)]
    /\ App_wf w' a'
    /\ App_attached w' a'.
Proof.
  intros Hwf [Am Ag]. destruct (App_wf_nodes _ _ Hwf) as (ndm & ndg & Hm & Hg).
  destruct Hwf as (Hne & _ & _). view_groups.
  rewrite Hm in Am. rewrite Hg in Ag. simpl in Am, Ag.
  injection Am as Am. injection Ag as Ag.
  destruct (App_switchToScreen_live w a ndm ndg Hne Hm Hg screen) as [a' Hrun].
  destruct (App_switchToScreen_type_nodes w a (Screen_type screen) ndm ndg Hne Hm Hg)
    as (a'' & w'' & Hrun'' & _ & Hl & Hmc & Hgv & _ & Lm & Lg & _).
  unfold App_switchToScreen in Hrun. rewrite Hrun in Hrun''.
  injection Hrun'' as <- <-.
  eexists a', _, _. split; [exact Hrun |].
  split; [apply World_switched_trace |].
  split.
  { unfold hide_effects, entry_effects, redraw. rewrite Am, Ag.
    destruct screen; reflexivity. }
  split.
  { unfold App_wf. view_groups. rewrite Hmc, Hgv, Lm, Lg.
    split; [exact Hne | split; eauto]. }
  unfold App_attached. view_groups. rewrite Hmc, Hgv, Hl, Lm, Lg. simpl.
  rewrite Am, Ag. split; reflexivity.
Qed.

(** X16.  The start button's handler followed by the game's [endGame]:
    after the click the game view is visible and the menu view hidden;
    [endGame] then brings the menu view back and hides the game view,
    and it returns the app it was given, so the model is still the one
    the start of the game reset. *)
Theorem start_click_then_end_game (w : World) (a : App GameScreenModel) :
  App_wf w a ->
  exists a1 w1 w2,
    run (MenuScreenController_handleStartClick a) w = (Ok a1, w1)
    /\ reports_visible w1 (getView (App_gameController a1)) = true
    /\ reports_visible w1 (getView (App_menuController a1)) = false
    /\ GameScreenController_model (App_gameController a1)
       = GameScreenModel_reset (GameScreenController_model (App_gameController a))
    /\ run (GameScreenController_endGame a1) w1 = (Ok a1, w2)
    /\ reports_visible w2 (getView (App_menuController a1)) = true
    /\ reports_visible w2 (getView (App_gameController a1)) = false.
Proof.
  intros Hwf. destruct (App_wf_nodes _ _ Hwf) as (ndm & ndg & Hm & Hg).
  destruct Hwf as (Hne & _ & _). view_groups.
  unfold MenuScreenController_handleStartClick, GameScreenController_endGame,
    App_switchToScreen.
  destruct (App_switchToScreen_type_nodes w a (Screen_type ScreenGame) ndm ndg Hne Hm Hg)
    as (a1 & w1 & Hrun1 & _ & _ & Hmc1 & Hgv1 & Hmod1 & Lm1 & Lg1 & _).
  assert (Hne1 : MenuScreenView_group (MenuScreenController_view (App_menuController a1)) <>
                 GameScreenView_group (GameScreenController_view (App_gameController a1)))
    by (rewrite Hmc1, Hgv1; exact Hne).
  assert (Hm1 : nodes w1 !! MenuScreenView_group
                               (MenuScreenController_view (App_menuController a1))
                = Some (Konva.with_visible false ndm)) by (rewrite Hmc1; exact Lm1).
  assert (Hg1 : nodes w1 !! GameScreenView_group
                               (GameScreenController_view (App_gameController a1))
                = Some (Konva.with_visible true ndg)) by (rewrite Hgv1; exact Lg1).
  pose proof (App_switchToScreen_menu_live w1 a1 _ _ Hne1 Hm1 Hg1) as Hrun2.
  destruct (App_switchToScreen_type_nodes w1 a1 (Screen_type ScreenMenu) _ _ Hne1 Hm1 Hg1)
    as (a2 & w2 & Hrun2' & _ & _ & _ & _ & _ & Lm2 & Lg2 & _).
  unfold App_switchToScreen in Hrun2. rewrite Hrun2 in Hrun2'. injection Hrun2' as <- <-.
  eexists a1, w1, _.
  split; [exact Hrun1 |].
  unfold reports_visible. view_groups.
  split; [rewrite Hg1; reflexivity |].
  split; [rewrite Hm1; reflexivity |].
  split; [exact Hmod1 |].
  split; [exact Hrun2 |].
  split; [rewrite Lm2; reflexivity | rewrite Lg2; reflexivity].
Qed.

(** X17.  [startGame()] on its own does not hide anything: on an app
    whose views are two distinct live groups it resets the model and
    makes the game view visible, and the menu group stays as it was.
    Called while the menu is visible it leaves both views visible; only
    [switchToScreen] keeps them exclusive. *)
Theorem GameScreenController_startGame_keeps_menu (w : World) (a : App GameScreenModel) :
  App_wf w a ->
  exists g w',
    run (GameScreenController_startGame (App_gameController a)) w = (Ok g, w')
    /\ GameScreenController_model g
       = GameScreenModel_reset (GameScreenController_model (App_gameController a))
    /\ nodes w' !! getGroup (getView (App_menuController a))
       = nodes w !! getGroup (getView (App_menuController a))
    /\ reports_visible w' (getView g) = true
    /\ visible_views w' (App_with_gameController g a)
       = (if reports_visible w (getView (App_menuController a)) then 2 else 1).
Proof.
  intros Hwf. destruct (App_wf_nodes _ _ Hwf) as (ndm & ndg & Hm & Hg).
  destruct Hwf as (Hne & _ & _). view_groups.
  assert (Hne' : GameScreenView_group (GameScreenController_view (App_gameController a)) <>
                 MenuScreenView_group (MenuScreenController_view (App_menuController a)))
    by congruence.
  eexists _, _. split; [apply (GameScreenController_startGame_live a w ndg Hg) |].
  split; [reflexivity |].
  assert (Lm : nodes (World_after_visible
                        (GameScreenView_group (GameScreenController_view (App_gameController a)))
                        true ndg (World_emit EReset w))
               !! MenuScreenView_group (MenuScreenController_view (App_menuController a))
               = Some ndm).
  { rewrite (after_visible_lookup_ne _ _ _ _ _ Hne'). exact Hm. }
  assert (Lg : nodes (World_after_visible
                        (GameScreenView_group (GameScreenController_view (App_gameController a)))
                        true ndg (World_emit EReset w))
               !! GameScreenView_group (GameScreenController_view (App_gameController a))
               = Some (Konva.with_visible true ndg)).
  { apply (after_visible_lookup _ true ndg ndg (World_emit EReset w)). exact Hg. }
  unfold visible_views, reports_visible. view_groups.
  rewrite Lm, Lg, Hm. split; [reflexivity |]. split; [reflexivity |].
  destruct (Konva.visible ndm); reflexivity.
Qed.

(** ** The page as a whole *)

Lemma Page_inv_switch (a : App GameScreenModel) w screen :
  Page_inv (a, w) -> Page_inv (Page_step (a, w) (PageSwitch screen)).
Proof.
  intros (Hwf & [Am Ag] & _). cbn [fst snd] in *.
  destruct (App_wf_nodes _ _ Hwf) as (ndm & ndg & Hm & Hg).
  destruct (App_switchToScreen_type_spec w a (Screen_type screen) Hwf)
    as (a' & w' & Hrun & Hwf' & Hv).
  destruct Hwf as (Hne & _ & _). view_groups.
  destruct (App_switchToScreen_type_nodes w a (Screen_type screen) ndm ndg Hne Hm Hg)
    as (a'' & w'' & Hrun'' & _ & Hl & Hmc & Hgv & _ & Lm & Lg & _).
  rewrite Hrun in Hrun''. injection Hrun'' as <- <-.
  unfold Page_step, App_switchToScreen. cbn [fst snd]. rewrite Hrun.
  unfold Page_inv. cbn [fst snd].
  split; [exact Hwf' | split].
  - unfold App_attached in *. view_groups. rewrite Hmc, Hgv, Hl, Lm, Lg.
    rewrite Hm in Am. rewrite Hg in Ag. simpl in *. split; assumption.
  - rewrite Hv, Screen_type_recognized. reflexivity.
Qed.

Lemma Page_inv_object (a : App GameScreenModel) w c :
  Page_inv (a, w) -> Page_inv (Page_step (a, w) (PageObject c)).
Proof.
  intros (Hwf & [Am Ag] & Hv). cbn [fst snd Page_step] in *.
  destruct (App_wf_nodes _ _ Hwf) as (ndm & ndg & Hm & Hg).
  destruct Hwf as (Hne & _ & _). view_groups.
  destruct (keeps_view_perform c w) as [_ Hn]. fold (client_step w c) in Hn.
  destruct (Hn _ _ Hm) as (ndm' & Hm' & Hvm & Hlm).
  destruct (Hn _ _ Hg) as (ndg' & Hg' & Hvg & Hlg).
  unfold Page_inv, App_wf, App_attached, visible_views, reports_visible in *.
  cbn [fst snd]. view_groups.
  rewrite Hm in Am, Hv. rewrite Hg in Ag, Hv. rewrite Hm', Hg'. simpl in *.
  rewrite Hvm, Hvg, Hlm, Hlg.
  split; [split; [exact Hne | split; eauto] | split; [split; assumption | exact Hv]].
Qed.

Lemma Page_inv_run calls : forall s : App GameScreenModel * World,
  Page_inv s -> Page_inv (Page_run calls s).
Proof.
  induction calls as [| call calls IH]; intros [a w] H; [exact H |].
  apply IH. destruct call; [apply Page_inv_switch | apply Page_inv_object]; exact H.
Qed.

Lemma App_constructor_on_any_store_inv container w0 :
  exists (a0 : App GameScreenModel) w1,
    run (App_constructor container) w0 = (Ok a0, w1) /\ Page_inv (a0, w1).
Proof.
  eexists _, _. split; [apply App_constructor_run |].
  assert (L : forall k nd i os tr (l : list Konva.Node),
            l !! k = Some nd ->
            nodes (mkWorld i (nodes w0 ++ l) os tr) !! (length (nodes w0) + k) = Some nd).
  { intros k nd i os tr l H. cbn [nodes]. rewrite lookup_app_r by lia.
    rewrite <- H. f_equal. lia. }
  unfold Page_inv, App_wf, App_attached, visible_views, reports_visible.
  cbn [fst snd App_layer App_menuController App_gameController getGroup getView ViewOf_View
       MenuScreenView_View GameScreenView_View MenuScreenController_ScreenController
       GameScreenController_ScreenController MenuScreenController_view
       GameScreenController_view MenuScreenView_group GameScreenView_group].
  erewrite !L by reflexivity. cbn.
  split; [split; [lia | split; eauto] | split; [split; reflexivity | reflexivity]].
Qed.

(** X18.  Build the app on any store and let any mix of navigation
    requests and of constructor, getter and setter calls on entities go
    by, on any handles, the view groups included: after every one of
    them the two views are still two distinct live groups attached to
    the app's layer, and exactly one of them reports visible. *)
Theorem Page_one_screen_visible (container : string) (w0 : World) (calls : list Page_call) :
  exists a0 w1,
    run (App_constructor container) w0 = (Ok a0, w1)
    /\ visible_views (snd (Page_run calls (a0, w1))) (fst (Page_run calls (a0, w1))) = 1
    /\ App_wf (snd (Page_run calls (a0, w1))) (fst (Page_run calls (a0, w1)))
    /\ App_attached (snd (Page_run calls (a0, w1))) (fst (Page_run calls (a0, w1))).
Proof.
  destruct (App_constructor_on_any_store_inv container w0) as (a0 & w1 & Hrun & Hinv).
  exists a0, w1. split; [exact Hrun |].
  destruct (Page_inv_run calls (a0, w1) Hinv) as (Hwf & Hat & Hv).
  split; [exact Hv | split; assumption].
Qed.


End Theorems.

(** * The properties on the concrete runs *)

Import Demo.

(** The concrete app and stores are what the constructors compute. *)
Example demo_app_constructed :
  run (App_constructor "container") World_initial = (Ok demo_app, demo_world).
Proof. reflexivity. Qed.

Example demo_entity_constructed :
  fst (run (Object_constructor (Some 0) None None None) demo_handles) = Ok 0.
Proof. reflexivity. Qed.

(** The app of the loaded page has two distinct live groups. *)
Lemma demo_app_wf : App_wf demo_world demo_app.
Proof.
  split; [discriminate | split; eexists; reflexivity].
Defined.

(** C2 at the app of the loaded page, switching to the game. *)
Lemma App_switchToScreen_hide_all_before_show_witness :
  App_wf demo_world demo_app
  /\ exists a' w' ndm ndg,
       run (App_switchToScreen demo_app ScreenGame) demo_world = (Ok a', w')
       /\ nodes demo_world !! 2 = Some ndm
       /\ nodes demo_world !! 3 = Some ndg
       /\ trace w' = trace demo_world ++ hide_effects 2 3 ndm ndg
                                      ++ entry_effects 2 3 ndm ndg ScreenGame
       /\ In (EVisible 2 false) (hide_effects 2 3 ndm ndg)
       /\ In (EVisible 3 false) (hide_effects 2 3 ndm ndg)
       /\ forallb (fun e => negb (Effect_shows e)) (hide_effects 2 3 ndm ndg) = true
       /\ existsb Effect_shows (entry_effects 2 3 ndm ndg ScreenGame) = true
       /\ nodes w' = replay (hide_effects 2 3 ndm ndg ++ entry_effects 2 3 ndm ndg ScreenGame)
                            (nodes demo_world)
       /\ forall k : nat,
            0 < k <= length (hide_effects 2 3 ndm ndg ++ entry_effects 2 3 ndm ndg ScreenGame) ->
            node_visible
              (replay (take k (hide_effects 2 3 ndm ndg ++ entry_effects 2 3 ndm ndg ScreenGame))
                      (nodes demo_world)) 2
            && node_visible
                 (replay (take k (hide_effects 2 3 ndm ndg
                                  ++ entry_effects 2 3 ndm ndg ScreenGame))
                         (nodes demo_world)) 3
            = false.
Proof.
  split; [exact demo_app_wf |].
  exact (App_switchToScreen_hide_all_before_show demo_world demo_app ScreenGame
           demo_app_wf).
Defined.

(** C3 at the app of the loaded page. *)
Lemma App_switchToScreen_game_resets_then_shows_witness :
  App_wf demo_world demo_app
  /\ exists wh g w',
       run (ScreenController_hide (App_menuController demo_app);;
            ScreenController_hide (App_gameController demo_app)) demo_world = (Ok tt, wh)
       /\ run (GameScreenController_startGame (App_gameController demo_app)) wh
          = (Ok g, w')
       /\ run (App_switchToScreen demo_app ScreenGame) demo_world
          = (Ok (App_with_gameController g demo_app), w')
       /\ GameScreenController_model g = 0
       /\ GameScreenController_view g = mkGameScreenView 3
       /\ (exists draws,
             trace w' = trace wh ++ EReset :: EVisible (getGroup (getView g)) true :: draws
             /\ forallb Effect_is_draw draws = true)
       /\ reports_visible w' (getView g) = true
       /\ reports_visible w' (mkMenuScreenView 2) = false.
Proof.
  split; [exact demo_app_wf |].
  exact (App_switchToScreen_game_resets_then_shows demo_world demo_app
           demo_app_wf).
Defined.

(** C8 at the menu view of the loaded page. *)
Lemma MenuScreenView_show_hide_idempotent_witness :
  is_Some (nodes demo_world !! 2)
  /\ (exists w1 w2 draws,
         run (MenuScreenView_show (mkMenuScreenView 2)) demo_world = (Ok tt, w1)
         /\ run (MenuScreenView_show (mkMenuScreenView 2)) w1 = (Ok tt, w2)
         /\ nodes w2 = nodes w1 /\ ID w2 = ID w1 /\ objects w2 = objects w1
         /\ trace w2 = trace w1 ++ EVisible 2 true :: draws
         /\ forallb Effect_is_draw draws = true
         /\ reports_visible w1 (mkMenuScreenView 2) = true
         /\ reports_visible w2 (mkMenuScreenView 2) = true)
  /\ (exists w1 w2 draws,
         run (MenuScreenView_hide (mkMenuScreenView 2)) demo_world = (Ok tt, w1)
         /\ run (MenuScreenView_hide (mkMenuScreenView 2)) w1 = (Ok tt, w2)
         /\ nodes w2 = nodes w1 /\ ID w2 = ID w1 /\ objects w2 = objects w1
         /\ trace w2 = trace w1 ++ EVisible 2 false :: draws
         /\ forallb Effect_is_draw draws = true
         /\ reports_visible w1 (mkMenuScreenView 2) = false
         /\ reports_visible w2 (mkMenuScreenView 2) = false)
  /\ (exists w3,
         run (MenuScreenView_show (mkMenuScreenView 2);;
              MenuScreenView_hide (mkMenuScreenView 2);;
              MenuScreenView_show (mkMenuScreenView 2)) demo_world = (Ok tt, w3)
         /\ reports_visible w3 (mkMenuScreenView 2) = true).
Proof.
  assert (H : is_Some (nodes demo_world !! 2)) by (eexists; reflexivity).
  split; [exact H |].
  exact (MenuScreenView_show_hide_idempotent (mkMenuScreenView 2) demo_world H).
Defined.

(** C6 at the entity on the 10 by 20 group, with the value 45/2. *)
Lemma Object_setters_reach_handle_witness :
  objects demo_entity !! 0 = Some demo_object
  /\ _image demo_object = Some 0
  /\ nodes demo_entity !! 0 = Some demo_handle
  /\ (exists w', run (Object_set_rotation 0 (45 # 2)) demo_entity = (Ok tt, w')
                 /\ run (Konva_read Konva.rotation 0) w' = (Ok (45 # 2), w')
                 /\ run (Object_get_rotation 0) w' = (Ok (45 # 2), w'))
  /\ (exists w', run (Object_set_scale 0 (45 # 2)) demo_entity = (Ok tt, w')
                 /\ run (Konva_read Konva.scaleX 0) w' = (Ok (45 # 2), w')
                 /\ run (Konva_read Konva.scaleY 0) w' = (Ok (45 # 2), w')
                 /\ run (Object_get_scale 0) w' = (Ok (45 # 2), w'))
  /\ (exists w', run (Object_set_x 0 (45 # 2)) demo_entity = (Ok tt, w')
                 /\ run (Konva_read Konva.x 0) w' = (Ok (45 # 2), w')
                 /\ run (Object_get_x 0) w' = (Ok (45 # 2), w'))
  /\ (exists w', run (Object_set_y 0 (45 # 2)) demo_entity = (Ok tt, w')
                 /\ run (Konva_read Konva.y 0) w' = (Ok (45 # 2), w')
                 /\ run (Object_get_y 0) w' = (Ok (45 # 2), w')).
Proof.
  split; [reflexivity |]. split; [reflexivity |]. split; [reflexivity |].
  exact (Object_setters_reach_handle demo_entity 0 demo_object 0 demo_handle (45 # 2)
           eq_refl eq_refl eq_refl).
Defined.

(** C9 at the same entity, swapping in the 4 by 6 group. *)
Lemma Object_set_image_swaps_only_handle_witness :
  objects demo_entity !! 0 = Some demo_object
  /\ exists w' o',
       run (Object_set_image 0 (Some 1)) demo_entity = (Ok tt, w')
       /\ objects w' !! 0 = Some o'
       /\ _image o' = Some 1
       /\ _Id o' = _Id demo_object /\ _rank o' = _rank demo_object
       /\ _rotation o' = _rotation demo_object
       /\ _scale o' = _scale demo_object /\ _x o' = _x demo_object /\ _y o' = _y demo_object
       /\ nodes w' = nodes demo_entity
       /\ (forall g nd, Some 1 = Some g -> nodes demo_entity !! g = Some nd ->
             Konva.offsetX <$> nodes w' !! g = Some (Konva.offsetX nd)
             /\ Konva.offsetY <$> nodes w' !! g = Some (Konva.offsetY nd))
       /\ ID w' = ID demo_entity
       /\ trace w' = trace demo_entity
       /\ (forall other, other <> 0 -> objects w' !! other = objects demo_entity !! other).
Proof.
  split; [reflexivity |].
  exact (Object_set_image_swaps_only_handle demo_entity 0 demo_object (Some 1) eq_refl).
Defined.

(** C10 at the construction of that entity. *)
Lemma Object_constructor_leaves_handle_position_witness :
  nodes demo_handles !! 0 = Some (Konva.with_size 10 20 Konva.default)
  /\ exists this w' o nd',
       run (Object_constructor (Some 0) None None None) demo_handles = (Ok this, w')
       /\ objects w' !! this = Some o
       /\ nodes w' !! 0 = Some nd'
       /\ _x o = (800 / 2)%Q
       /\ _y o = (600 / 2)%Q
       /\ Konva.x nd' = 0%Q
       /\ Konva.y nd' = 0%Q
       /\ nd' = demo_handle
       /\ (forall n, n <> 0 -> nodes w' !! n = nodes demo_handles !! n)
       /\ ((Konva.x nd' == _x o)%Q <-> (0 == 800 / 2)%Q)
       /\ ((Konva.y nd' == _y o)%Q <-> (0 == 600 / 2)%Q).
Proof.
  split; [reflexivity |].
  exact (Object_constructor_leaves_handle_position demo_handles 0
           (Konva.with_size 10 20 Konva.default) None None None eq_refl).
Defined.

(** C5 (as amended) at the same entity, and at a construction on the
    4 by 6 group. *)
Lemma Object_failure_conditions_witness :
  (forall g, Some 1 = Some g -> is_Some (nodes demo_entity !! g))
  /\ objects demo_entity !! 0 = Some demo_object
  /\ (forall g, _image demo_object = Some g -> is_Some (nodes demo_entity !! g))
  /\ (succeeds (run (Object_constructor (Some 1) None None None) demo_entity) = false
      <-> Some 1 = @None nat)
  /\ succeeds (run (Object_set_rank 0 7) demo_entity) = true
  /\ succeeds (run (Object_set_image 0 None) demo_entity) = true
  /\ succeeds (run (Object_set_rotation 0 7) demo_entity) = true
  /\ succeeds (run (Object_set_scale 0 7) demo_entity) = true
  /\ succeeds (run (Object_set_x 0 7) demo_entity) = true
  /\ succeeds (run (Object_set_y 0 7) demo_entity) = true.
Proof.
  assert (H1 : forall g, Some 1 = Some g -> is_Some (nodes demo_entity !! g)).
  { intros g [= <-]. eexists. reflexivity. }
  assert (H2 : objects demo_entity !! 0 = Some demo_object) by reflexivity.
  assert (H3 : forall g, _image demo_object = Some g -> is_Some (nodes demo_entity !! g)).
  { intros g [= <-]. eexists. reflexivity. }
  split; [exact H1 |]. split; [exact H2 |]. split; [exact H3 |].
  destruct (Object_failure_conditions demo_entity (Some 1) None None None
              0 demo_object 7 None H1 H2 H3) as (Hc & _ & Hr & Hi & Hs & _).
  split; [exact Hc |]. split; [exact Hr |]. split; [exact Hi |].
  apply Hs. eexists. reflexivity.
Defined.

(** C5, as the claim has it, fails: on the loaded page, make a group,
    construct an entity on it and give its [image] setter [undefined],
    which it accepts; the [rotation] setter then throws. *)
Lemma Object_setter_throws_without_handle :
  exists w1 w2,
    run (g ← Konva_new (Konva.with_size 10 20 Konva.default);
         o ← Object_constructor (Some g) None None None;
         Object_set_image o None;;
         mret o) World_initial = (Ok 0, w1)
    /\ run (Object_set_rotation 0 90) w1 = (Throw TypeError, w2)
    /\ succeeds (run (Object_set_rotation 0 90) w1) = false.
Proof.
  eexists _, _. split; [reflexivity |]. split; reflexivity.
Qed.

(** C4.  With a stage of 800 by 600, an entity constructed with the
    default position on a 10 by 20 group that sits at the origin stores
    the stage centre as its position and gives the group offsets of half
    its width and height, but the group itself stays at the origin, not
    at the centre. *)
Theorem Object_constructor_default_not_centred :
  exists this w' o nd',
    run (Object_constructor (Some 0) None None None) demo_handles = (Ok this, w')
    /\ objects w' !! this = Some o
    /\ nodes w' !! 0 = Some nd'
    /\ _x o = (800 / 2)%Q /\ _y o = (600 / 2)%Q
    /\ Konva.offsetX nd' = (10 / 2)%Q /\ Konva.offsetY nd' = (20 / 2)%Q
    /\ Konva.x nd' = 0%Q /\ Konva.y nd' = 0%Q
    /\ ~ (Konva.x nd' == 800 / 2)%Q
    /\ ~ (Konva.y nd' == 600 / 2)%Q.
Proof.
  eexists _, _, _, _. split; [reflexivity |].
  split; [reflexivity |]. split; [reflexivity |].
  do 6 (split; [reflexivity |]).
  split; intros H; vm_compute in H; discriminate H.
Qed.

(** X1 at the entity on the 10 by 20 group, with the value 45/2. *)
Lemma Object_setters_frame_witness :
  objects demo_entity !! 0 = Some demo_object
  /\ _image demo_object = Some 0
  /\ nodes demo_entity !! 0 = Some demo_handle
  /\ Forall (fun '(set, fo, fn) =>
               exists w',
                 run (set 0 (45 # 2)) demo_entity = (Ok tt, w')
                 /\ objects w' !! 0 = Some (fo (45 # 2) demo_object)
                 /\ nodes w' !! 0 = Some (fn (45 # 2) demo_handle)
                 /\ (forall other, other <> 0 -> objects w' !! other = objects demo_entity !! other)
                 /\ (forall n, n <> 0 -> nodes w' !! n = nodes demo_entity !! n)
                 /\ ID w' = ID demo_entity
                 /\ trace w' = trace demo_entity)
            Object_transform_setters.
Proof.
  split; [reflexivity |]. split; [reflexivity |]. split; [reflexivity |].
  exact (Object_setters_frame demo_entity 0 demo_object 0 demo_handle (45 # 2)
           eq_refl eq_refl eq_refl).
Defined.

(** X2 at the same entity. *)
Lemma Object_rank_image_round_trip_witness :
  objects demo_entity !! 0 = Some demo_object
  /\ (exists w', run (Object_set_rank 0 7;; Object_get_rank 0) demo_entity = (Ok 7%Q, w')
                 /\ nodes w' = nodes demo_entity /\ trace w' = trace demo_entity)
  /\ (exists w', run (Object_set_image 0 None;; Object_get_image 0) demo_entity = (Ok None, w')
                 /\ nodes w' = nodes demo_entity /\ trace w' = trace demo_entity).
Proof.
  split; [reflexivity |].
  exact (Object_rank_image_round_trip demo_entity 0 demo_object 7 None eq_refl).
Defined.

(** X3 at the same entity, swapping in the 4 by 6 group. *)
Lemma Object_set_image_then_setter_witness :
  objects demo_entity !! 0 = Some demo_object
  /\ nodes demo_entity !! 1 = Some demo_handle'
  /\ Forall (fun '(set, fo, fn) =>
               exists w',
                 run (Object_set_image 0 (Some 1);; set 0 (45 # 2)) demo_entity = (Ok tt, w')
                 /\ objects w' !! 0
                    = Some (fo (45 # 2) (Object_with_image (Some 1) demo_object))
                 /\ nodes w' !! 1 = Some (fn (45 # 2) demo_handle')
                 /\ (forall n, n <> 1 -> nodes w' !! n = nodes demo_entity !! n))
            Object_transform_setters.
Proof.
  split; [reflexivity |]. split; [reflexivity |].
  exact (Object_set_image_then_setter demo_entity 0 demo_object 1 demo_handle' (45 # 2)
           eq_refl eq_refl).
Defined.

(** X4 at the same entity, with the values 3 and 5. *)
Lemma Object_setters_commute_witness :
  objects demo_entity !! 0 = Some demo_object
  /\ _image demo_object = Some 0
  /\ nodes demo_entity !! 0 = Some demo_handle
  /\ run (Object_set_x 0 3;; Object_set_y 0 5) demo_entity
     = run (Object_set_y 0 5;; Object_set_x 0 3) demo_entity
  /\ run (Object_set_rotation 0 3;; Object_set_scale 0 5) demo_entity
     = run (Object_set_scale 0 5;; Object_set_rotation 0 3) demo_entity
  /\ run (Object_set_x 0 3;; Object_set_rotation 0 5) demo_entity
     = run (Object_set_rotation 0 5;; Object_set_x 0 3) demo_entity
  /\ run (Object_set_x 0 3;; Object_set_scale 0 5) demo_entity
     = run (Object_set_scale 0 5;; Object_set_x 0 3) demo_entity
  /\ run (Object_set_y 0 3;; Object_set_rotation 0 5) demo_entity
     = run (Object_set_rotation 0 5;; Object_set_y 0 3) demo_entity
  /\ run (Object_set_y 0 3;; Object_set_scale 0 5) demo_entity
     = run (Object_set_scale 0 5;; Object_set_y 0 3) demo_entity
  /\ Forall (fun '(set, _, _) =>
               run (set 0 3%Q;; set 0 5%Q) demo_entity = run (set 0 5%Q) demo_entity)
            Object_transform_setters.
Proof.
  split; [reflexivity |]. split; [reflexivity |]. split; [reflexivity |].
  exact (Object_setters_commute demo_entity 0 demo_object 0 demo_handle 3 5
           eq_refl eq_refl eq_refl).
Defined.

(** X5 at the two entities that share the 10 by 20 group. *)
Lemma Object_shared_handle_goes_stale_witness :
  0 <> 1
  /\ objects demo_shared !! 0 = Some demo_object
  /\ objects demo_shared !! 1 = Some demo_object'
  /\ _image demo_object = Some 0
  /\ _image demo_object' = Some 0
  /\ nodes demo_shared !! 0 = Some demo_handle
  /\ (exists w', run (Object_set_rotation 0 9) demo_shared = (Ok tt, w')
                 /\ run (Object_get_rotation 1) w' = (Ok (_rotation demo_object'), w')
                 /\ run (Object_this_image 1 ≫= Konva_read Konva.rotation) w' = (Ok 9%Q, w'))
  /\ (exists w', run (Object_set_scale 0 9) demo_shared = (Ok tt, w')
                 /\ run (Object_get_scale 1) w' = (Ok (_scale demo_object'), w')
                 /\ run (Object_this_image 1 ≫= Konva_read Konva.scaleX) w' = (Ok 9%Q, w'))
  /\ (exists w', run (Object_set_x 0 9) demo_shared = (Ok tt, w')
                 /\ run (Object_get_x 1) w' = (Ok (_x demo_object'), w')
                 /\ run (Object_this_image 1 ≫= Konva_read Konva.x) w' = (Ok 9%Q, w'))
  /\ (exists w', run (Object_set_y 0 9) demo_shared = (Ok tt, w')
                 /\ run (Object_get_y 1) w' = (Ok (_y demo_object'), w')
                 /\ run (Object_this_image 1 ≫= Konva_read Konva.y) w' = (Ok 9%Q, w')).
Proof.
  assert (H : 0 <> 1) by discriminate.
  split; [exact H |].
  do 5 (split; [reflexivity |]).
  exact (Object_shared_handle_goes_stale demo_shared 0 1 demo_object demo_object' 0
           demo_handle 9 H eq_refl eq_refl eq_refl eq_refl eq_refl).
Defined.

(** X6 on the store with the two groups. *)
Lemma Object_constructor_failure_consumes_id_witness :
  is_Some (nodes demo_handles !! 0)
  /\ exists w1 this w2 o,
       run (Object_constructor None None None None) demo_handles = (Throw TypeError, w1)
       /\ nodes w1 = nodes demo_handles
       /\ trace w1 = trace demo_handles
       /\ (forall i oi, objects demo_handles !! i = Some oi -> objects w1 !! i = Some oi)
       /\ ID w1 = (ID demo_handles + 1)%Z
       /\ run (Object_constructor (Some 0) None None None) w1 = (Ok this, w2)
       /\ objects w2 !! this = Some o
       /\ _Id o = (ID demo_handles + 1)%Z.
Proof.
  assert (H : is_Some (nodes demo_handles !! 0)) by (eexists; reflexivity).
  split; [exact H |].
  exact (Object_constructor_failure_consumes_id demo_handles None None None None None None 0 H).
Defined.

(** X7 at the construction of the first entity. *)
Lemma Object_getters_after_construction_witness :
  nodes demo_handles !! 0 = Some (Konva.with_size 10 20 Konva.default)
  /\ exists w' nd',
       run (this ← Object_constructor (Some 0) None None None;
            id ← Object_get_Id this;
            rk ← Object_get_rank this;
            ro ← Object_get_rotation this;
            sc ← Object_get_scale this;
            px ← Object_get_x this;
            py ← Object_get_y this;
            im ← Object_get_image this;
            mret (id, rk, ro, sc, px, py, im)) demo_handles
       = (Ok (0%Z, 1%Q, 0%Q, 1%Q, (800 / 2)%Q, (600 / 2)%Q, Some 0), w')
       /\ nodes w' !! 0 = Some nd'
       /\ Konva.rotation nd' = 0%Q
       /\ Konva.scaleX nd' = 1%Q
       /\ Konva.scaleY nd' = 1%Q.
Proof.
  split; [reflexivity |].
  exact (Object_getters_after_construction demo_handles 0
           (Konva.with_size 10 20 Konva.default) None None None eq_refl).
Defined.

(** X9 at the menu view of the loaded page, hiding it. *)
Lemma MenuScreenView_show_hide_frame_witness :
  nodes demo_world !! 2 = Some demo_menu_group
  /\ exists w',
       run (MenuScreenView_hide (mkMenuScreenView 2)) demo_world = (Ok tt, w')
       /\ nodes w' !! 2 = Some (Konva.with_visible false demo_menu_group)
       /\ (forall n, n <> 2 -> nodes w' !! n = nodes demo_world !! n)
       /\ ID w' = ID demo_world
       /\ objects w' = objects demo_world
       /\ trace w' = trace demo_world ++ [EVisible 2 false; EDraw 1].
Proof.
  split; [reflexivity |].
  exact (MenuScreenView_show_hide_frame (mkMenuScreenView 2) demo_world demo_menu_group false
           eq_refl).
Defined.

(** X10 at the same view: hide, show, show, hide. *)
Lemma MenuScreenView_last_call_wins_witness :
  nodes demo_world !! 2 = Some demo_menu_group
  /\ exists w',
       run (MenuScreenView_calls (mkMenuScreenView 2) [false; true; true; false]) demo_world
       = (Ok tt, w')
       /\ reports_visible w' (mkMenuScreenView 2) = false
       /\ nodes w' !! 2 = Some (Konva.with_visible false demo_menu_group)
       /\ (forall n, n <> 2 -> nodes w' !! n = nodes demo_world !! n)
       /\ trace w' = trace demo_world
                     ++ [EVisible 2 false; EDraw 1; EVisible 2 true; EDraw 1;
                         EVisible 2 true; EDraw 1; EVisible 2 false; EDraw 1].
Proof.
  split; [reflexivity |].
  exact (MenuScreenView_last_call_wins (mkMenuScreenView 2) [false; true; true; false]
           demo_world demo_menu_group eq_refl).
Defined.

(** X12 at the app of the loaded page, switching to the game. *)
Lemma App_switchToScreen_shows_requested_witness :
  App_wf demo_world demo_app
  /\ exists a' w',
       run (App_switchToScreen demo_app ScreenGame) demo_world = (Ok a', w')
       /\ reports_visible w' (getView (App_menuController a')) = false
       /\ reports_visible w' (getView (App_gameController a')) = true
       /\ App_stage a' = 0
       /\ App_layer a' = 1
       /\ getView (App_menuController a') = mkMenuScreenView 2
       /\ getView (App_gameController a') = mkGameScreenView 3
       /\ (forall n, n <> 2 -> n <> 3 -> nodes w' !! n = nodes demo_world !! n)
       /\ (forall n nd,
             nodes demo_world !! n = Some nd ->
             exists b,
               nodes w' !! n = Some nd \/ nodes w' !! n = Some (Konva.with_visible b nd))
       /\ ID w' = ID demo_world
       /\ objects w' = objects demo_world.
Proof.
  split; [exact demo_app_wf |].
  exact (App_switchToScreen_shows_requested demo_world demo_app ScreenGame demo_app_wf).
Defined.

(** X13 at the same app: to the game, then to the menu. *)
Lemma App_switchToScreen_last_call_wins_witness :
  App_wf demo_world demo_app
  /\ exists a2 w2 a' w',
       run (a1 ← App_switchToScreen_type demo_app "game";
            App_switchToScreen_type a1 "menu") demo_world = (Ok a2, w2)
       /\ run (App_switchToScreen_type demo_app "menu") demo_world = (Ok a', w')
       /\ nodes w2 = nodes w'
       /\ visible_views w2 a2 = visible_views w' a'.
Proof.
  split; [exact demo_app_wf |].
  exact (App_switchToScreen_last_call_wins demo_world demo_app "game" "menu" demo_app_wf).
Defined.

(** X14 at the same app, with the tag "result". *)
Lemma App_switchToScreen_unknown_tag_witness :
  App_wf demo_world demo_app
  /\ Screen_recognized "result" = false
  /\ exists w' es,
       run (App_switchToScreen_type demo_app "result") demo_world = (Ok demo_app, w')
       /\ reports_visible w' (getView (App_menuController demo_app)) = false
       /\ reports_visible w' (getView (App_gameController demo_app)) = false
       /\ visible_views w' demo_app = 0
       /\ trace w' = trace demo_world ++ es
       /\ forallb (fun e => match e with
                            | EVisible _ false | EDraw _ => true
                            | _ => false
                            end) es = true.
Proof.
  split; [exact demo_app_wf |]. split; [reflexivity |].
  exact (App_switchToScreen_unknown_tag demo_world demo_app "result" demo_app_wf eq_refl).
Defined.

(** The groups of the loaded page are attached to its layer. *)
Lemma demo_app_attached : App_attached demo_world demo_app.
Proof. split; reflexivity. Defined.

(** X15 at the same app, switching to the menu. *)
Lemma App_switchToScreen_three_redraws_witness :
  App_wf demo_world demo_app
  /\ App_attached demo_world demo_app
  /\ exists a' w' es,
       run (App_switchToScreen demo_app ScreenMenu) demo_world = (Ok a', w')
       /\ trace w' = trace demo_world ++ es
       /\ List.filter Effect_is_draw es = [EDraw 1; EDraw 1; EDraw 1]
       /\ App_wf w' a'
       /\ App_attached w' a'.
Proof.
  split; [exact demo_app_wf |]. split; [exact demo_app_attached |].
  exact (App_switchToScreen_three_redraws demo_world demo_app ScreenMenu
           demo_app_wf demo_app_attached).
Defined.

(** X16 at the same app. *)
Lemma start_click_then_end_game_witness :
  App_wf demo_world demo_app
  /\ exists a1 w1 w2,
       run (MenuScreenController_handleStartClick demo_app) demo_world = (Ok a1, w1)
       /\ reports_visible w1 (getView (App_gameController a1)) = true
       /\ reports_visible w1 (getView (App_menuController a1)) = false
       /\ GameScreenController_model (App_gameController a1) = 0
       /\ run (GameScreenController_endGame a1) w1 = (Ok a1, w2)
       /\ reports_visible w2 (getView (App_menuController a1)) = true
       /\ reports_visible w2 (getView (App_gameController a1)) = false.
Proof.
  split; [exact demo_app_wf |].
  exact (start_click_then_end_game demo_world demo_app demo_app_wf).
Defined.

(** X17 at the same app, whose menu view is visible. *)
Lemma GameScreenController_startGame_keeps_menu_witness :
  App_wf demo_world demo_app
  /\ exists g w',
       run (GameScreenController_startGame (App_gameController demo_app)) demo_world
       = (Ok g, w')
       /\ GameScreenController_model g = 0
       /\ nodes w' !! 2 = nodes demo_world !! 2
       /\ reports_visible w' (getView g) = true
       /\ visible_views w' (App_with_gameController g demo_app) = 2.
Proof.
  split; [exact demo_app_wf |].
  exact (GameScreenController_startGame_keeps_menu demo_world demo_app demo_app_wf).
Defined.
